(** * Screenplay core of automation-playwright-py-screenplay

    A shallow embedding of [src/screenplay]: the [Actor] class of
    [base.py], the [BrowseTheWeb] ability, the [Visibility], [Presence]
    and [Text] questions and the [Type], [Click] and [Navigate]
    interactions.

    Python objects live in a store indexed by references, so that two
    names for one object alias and a freshly constructed object is a new
    reference.  Every method is a state transformer that ends either in a
    value or in a raised exception; the state reached when an exception is
    raised is kept, as in Python.  The Playwright driver is external to
    the repository: it is a parameter (a record of state transformers
    typed after the Playwright calls the code makes). *)

From stdpp Require Import gmap strings list fin_maps.

(** ** Python values, exceptions and outcomes *)

(** The values that flow through option bags and question answers. *)
Inductive PyVal :=
  | VNone
  | VBool (b : bool)
  | VInt (z : Z)
  | VStr (s : string).

#[global] Instance PyVal_eq_dec : EqDecision PyVal.
Proof. solve_decision. Defined.

(** Python truthiness: [None], [False], [0] and [""] are falsy. *)
Definition truthy (v : PyVal) : bool :=
  match v with
  | VNone => false
  | VBool b => b
  | VInt z => negb (Z.eqb z 0)
  | VStr s => negb (String.eqb s "")
  end.

(** [a or b] *)
Definition py_or (a b : PyVal) : PyVal := if truthy a then a else b.

(** An [Optional[str]] coming back from the driver, as a Python value. *)
Definition of_optional_str (o : option string) : PyVal :=
  match o with
  | Some s => VStr s
  | None => VNone
  end.

(** A raised exception: the name of its class and its message.  Only
    classes deriving from [Exception] are modelled (what [except
    Exception] catches); interpreter signals such as [KeyboardInterrupt]
    are outside the model. *)
Record PyExc := mkExc { exc_type : string; exc_msg : string }.

#[global] Instance PyExc_eq_dec : EqDecision PyExc.
Proof. solve_decision. Defined.

Inductive outcome (A : Type) :=
  | Ret (a : A)
  | Raise (e : PyExc).
Arguments Ret {A} a.
Arguments Raise {A} e.

(** [s1 in s2] on strings, as a proposition. *)
Definition mentions (msg part : string) : Prop :=
  exists pre post, msg = pre +:+ part +:+ post.

(** ** Classes *)

(** A class object.  [cls_id] stands for the identity of the class object
    (what [dict] hashes and compares for a [type] key), [cls_name] is
    [__name__], and [cls_ancestors] lists the identities of its proper
    base classes. *)
Record pyclass := mkClass {
  cls_id : positive;
  cls_name : string;
  cls_ancestors : list positive
}.

#[global] Instance pyclass_eq_dec : EqDecision pyclass.
Proof. solve_decision. Defined.

#[global] Instance pyclass_countable : Countable pyclass.
Proof.
  refine (inj_countable'
    (fun c => (cls_id c, cls_name c, cls_ancestors c))
    (fun t => mkClass t.1.1 t.1.2 t.2) _).
  by intros [].
Defined.

(** [issubclass(S, B)] *)
Definition issubclass (S B : pyclass) : bool :=
  bool_decide (cls_id S = cls_id B) || bool_decide (cls_id B ∈ cls_ancestors S).

(** [issubclass(S, B) and S is not B] *)
Definition proper_subclass (S B : pyclass) : bool :=
  issubclass S B && negb (bool_decide (cls_id S = cls_id B)).

(** ** The store *)

Definition ref := positive.
(** Objects owned by the driver (Browser, BrowserContext, Page,
    ElementHandle). They are never [None] and always truthy. *)
Definition handle := nat.

(** An instance of [BrowseTheWeb] (or of a class deriving from it):
    its class and the four attributes set by [__init__]. *)
Record BrowseTheWebObj := mkBrowse {
  ob_class : pyclass;
  _browser : handle;
  _context : option handle;
  _page : option handle;
  _actor : option ref
}.

(** An instance of [Actor]. *)
Record ActorObj := mkActor {
  name : string;
  _abilities : gmap pyclass ref
}.

Inductive obj :=
  | OActor (a : ActorObj)
  | OBrowse (b : BrowseTheWebObj).

(** ** The driver *)

Module Playwright.

(** The calls the repository makes into Playwright's sync API, over a
    driver state of the driver's own. [wait_for_selector] returns an
    element handle that the code always discards. *)
Record Driver := {
  dstate : Type;
  new_context : handle -> dstate -> dstate * outcome handle;
  new_page : handle -> dstate -> dstate * outcome handle;
  page_close : handle -> dstate -> dstate * outcome unit;
  context_close : handle -> dstate -> dstate * outcome unit;
  browser_close : handle -> dstate -> dstate * outcome unit;
  goto : handle -> string -> gmap string PyVal -> dstate -> dstate * outcome unit;
  wait_for_load_state : handle -> string -> dstate -> dstate * outcome unit;
  wait_for_selector : handle -> string -> string -> dstate -> dstate * outcome unit;
  click : handle -> string -> gmap string PyVal -> dstate -> dstate * outcome unit;
  fill : handle -> string -> string -> dstate -> dstate * outcome unit;
  type : handle -> string -> string -> gmap string PyVal -> dstate -> dstate * outcome unit;
  is_visible : handle -> string -> dstate -> dstate * outcome bool;
  query_selector : handle -> string -> dstate -> dstate * outcome (option handle);
  text_content : handle -> string -> dstate -> dstate * outcome (option string)
}.

End Playwright.

Import Playwright.

(** Reads of Playwright objects used outside the lazy accessors: the
    attributes [page.context] and [context.browser] (fixed when the object
    is made; the code takes the browser of a context to be there), the
    attribute [page.url], and the call [page.title()]. *)
Record PageReads (D : Driver) := mkPageReads {
  page_context : handle -> handle;
  context_browser : handle -> handle;
  page_url : handle -> dstate D -> string;
  page_title : handle -> dstate D -> dstate D * outcome string
}.
Arguments page_context {D} _ _.
Arguments context_browser {D} _ _.
Arguments page_url {D} _ _ _.
Arguments page_title {D} _ _ _.

(** ** Worlds and the method monad *)

Record world (D : Driver) := mkWorld {
  heap : gmap ref obj;
  drv : dstate D
}.
Arguments mkWorld {D} heap drv.
Arguments heap {D} w.
Arguments drv {D} w.

Definition M (D : Driver) (A : Type) : Type := world D -> world D * outcome A.

Definition ret {D A} (a : A) : M D A := fun w => (w, Ret a).
Definition raise {D A} (e : PyExc) : M D A := fun w => (w, Raise e).
Definition bind {D A B} (m : M D A) (k : A -> M D B) : M D B :=
  fun w =>
    match m w with
    | (w', Ret a) => k a w'
    | (w', Raise e) => (w', Raise e)
    end.

Notation "x <- m ;; k" := (bind m (fun x => k))
  (at level 100, m at next level, right associativity).
Notation "m >> k" := (bind m (fun _ => k))
  (at level 100, right associativity).

(** [try: m except Exception: return v] *)
Definition try_except {D A} (m : M D A) (v : A) : M D A :=
  fun w =>
    match m w with
    | (w', Ret a) => (w', Ret a)
    | (w', Raise _) => (w', Ret v)
    end.

(** A call into the driver: only the driver's part of the world moves. *)
Definition call {D A} (f : dstate D -> dstate D * outcome A) : M D A :=
  fun w => let (d, r) := f (drv w) in (mkWorld (heap w) d, r).

(** Object construction: a reference that no object has yet. *)
Definition alloc {D} (o : obj) : M D ref :=
  fun w =>
    let r := fresh (dom (heap w)) in
    (mkWorld (<[r := o]> (heap w)) (drv w), Ret r).

Definition store {D} (r : ref) (o : obj) : M D unit :=
  fun w => (mkWorld (<[r := o]> (heap w)) (drv w), Ret tt).

Definition AttributeError (what : string) : PyExc :=
  mkExc "AttributeError" ("object has no attribute '" +:+ what +:+ "'").

(** Reading the attributes of [self] where the method expects an
    [Actor] (a [BrowseTheWeb]); any other object lacks them. *)
Definition the_actor {D} (self : ref) : M D ActorObj :=
  fun w =>
    match heap w !! self with
    | Some (OActor a) => (w, Ret a)
    | _ => (w, Raise (AttributeError "_abilities"))
    end.

Definition the_browse {D} (self : ref) : M D BrowseTheWebObj :=
  fun w =>
    match heap w !! self with
    | Some (OBrowse b) => (w, Ret b)
    | _ => (w, Raise (AttributeError "as_actor"))
    end.

(** ** The abstract bases of [base.py] *)

(** [Performable] (and its subclasses [Task] and [Interaction]): one
    method, [perform_as(actor)], whose result the callers ignore. *)
Record Performable (D : Driver) := mkPerformable {
  perform_as : ref -> M D PyVal
}.
Arguments mkPerformable {D} perform_as.
Arguments perform_as {D} p actor.

(** [Question[T]]: one method, [answered_by(actor)]. *)
Record Question (D : Driver) := mkQuestion {
  answered_by : ref -> M D PyVal
}.
Arguments mkQuestion {D} answered_by.
Arguments answered_by {D} q actor.

(** ** [abilities/browse_the_web.py] *)

Module BrowseTheWeb.

Definition Ability_cls : pyclass := mkClass 1 "Ability" [].
Definition cls : pyclass := mkClass 2 "BrowseTheWeb" [cls_id Ability_cls].

Section methods.
Context {D : Driver}.

(** [c(browser, context, page)]: [__init__] on a new instance of
    class [c] ([c] is [BrowseTheWeb] or a class deriving from it). *)
Definition new (c : pyclass) (browser : handle)
    (context page : option handle) : M D ref :=
  alloc (OBrowse (mkBrowse c browser context page None)).

(** [using(browser)], called on the class [c]. ([using_page(page)] is
    the same constructor call on [page.context.browser], [page.context]
    and [page].) *)
Definition using_ (c : pyclass) (browser : handle) : M D ref :=
  new c browser None None.

(** Attribute assignments [self._context = v], [self._page = v],
    [self._actor = v]. *)
Definition set_context (self : ref) (v : option handle) : M D unit :=
  b <- the_browse self;;
  store self (OBrowse (mkBrowse (ob_class b) (_browser b) v (_page b) (_actor b))).

Definition set_page (self : ref) (v : option handle) : M D unit :=
  b <- the_browse self;;
  store self (OBrowse (mkBrowse (ob_class b) (_browser b) (_context b) v (_actor b))).

Definition set_actor (self : ref) (v : option ref) : M D unit :=
  b <- the_browse self;;
  store self (OBrowse (mkBrowse (ob_class b) (_browser b) (_context b) (_page b) v)).

(** The constructed object is a [BrowseTheWeb] whatever the class of
    [self] is: the source names the class, not [type(self)]. *)
Definition as_actor (self actor : ref) : M D ref :=
  b <- the_browse self;;
  ability <- new cls (_browser b) (_context b) (_page b);;
  set_actor ability (Some actor) >>
  ret ability.

Definition browser (self : ref) : M D handle :=
  b <- the_browse self;;
  ret (_browser b).

(** The [context] property.  After the assignment, [return
    self._context] reads back the value just stored. *)
Definition context (self : ref) : M D handle :=
  b <- the_browse self;;
  match _context b with
  | None =>
      c <- call (new_context D (_browser b));;
      set_context self (Some c) >>
      ret c
  | Some c => ret c
  end.

(** The [page] property. *)
Definition page (self : ref) : M D handle :=
  b <- the_browse self;;
  match _page b with
  | None =>
      c <- context self;;
      p <- call (Playwright.new_page D c);;
      set_page self (Some p) >>
      ret p
  | Some p => ret p
  end.

Definition new_page (self : ref) : M D handle :=
  c <- context self;;
  call (Playwright.new_page D c).

(** [if self._page:] a page object is truthy, so the test is on
    [None]; likewise below. *)
Definition close_page (self : ref) : M D unit :=
  b <- the_browse self;;
  match _page b with
  | Some p =>
      call (page_close D p) >>
      set_page self None
  | None => ret tt
  end.

Definition close_context (self : ref) : M D unit :=
  b <- the_browse self;;
  match _context b with
  | Some c =>
      call (context_close D c) >>
      set_context self None >>
      set_page self None
  | None => ret tt
  end.

Definition close_browser (self : ref) : M D unit :=
  b <- the_browse self;;
  call (browser_close D (_browser b)).

(** [using_page(page)], called on the class [c]. *)
Definition using_page (R : PageReads D) (c : pyclass) (page : handle) : M D ref :=
  new c (context_browser R (page_context R page)) (Some (page_context R page)) (Some page).

(** [self._actor.name]; an actor object is truthy. *)
Definition __str__ (self : ref) : M D string :=
  b <- the_browse self;;
  match _actor b with
  | Some actor =>
      fun w =>
        match heap w !! actor with
        | Some (OActor a) => (w, Ret ("BrowseTheWeb(actor=" +:+ name a +:+ ")"))
        | _ => (w, Raise (AttributeError "name"))
        end
  | None => ret "BrowseTheWeb(actor=Unknown)"
  end.

End methods.

End BrowseTheWeb.

(** ** [base.py]: the actor *)

Module Actor.

Definition cls : pyclass := mkClass 3 "Actor" [].

Definition ValueError (msg : string) : PyExc := mkExc "ValueError" msg.
Definition KeyError (msg : string) : PyExc := mkExc "KeyError" msg.

Section methods.
Context {D : Driver}.

Definition new (name : string) : M D ref :=
  alloc (OActor (mkActor name ∅)).

(** [type(o)] *)
Definition type_of (o : ref) : M D pyclass :=
  fun w =>
    match heap w !! o with
    | Some (OBrowse b) => (w, Ret (ob_class b))
    | Some (OActor _) => (w, Ret cls)
    | None => (w, Raise (AttributeError "__class__"))
    end.

(** [self._abilities[k] = v] *)
Definition set_ability (self : ref) (k : pyclass) (v : ref) : M D unit :=
  a <- the_actor self;;
  store self (OActor (mkActor (name a) (<[k := v]> (_abilities a)))).

(** The loop of [who_can].  Python evaluates the right-hand side
    [ability.as_actor(self)] before the subscript target. *)
Fixpoint who_can_loop (self : ref) (abilities : list ref) : M D unit :=
  match abilities with
  | [] => ret tt
  | ability :: rest =>
      bound <- BrowseTheWeb.as_actor ability self;;
      k <- type_of ability;;
      set_ability self k bound >>
      who_can_loop self rest
  end.

Definition who_can (self : ref) (abilities : list ref) : M D ref :=
  who_can_loop self abilities >>
  ret self.

Fixpoint attempts_to_loop (self : ref) (tasks : list (Performable D)) : M D unit :=
  match tasks with
  | [] => ret tt
  | task :: rest =>
      perform_as task self >>
      attempts_to_loop self rest
  end.

Definition attempts_to (self : ref) (tasks : list (Performable D)) : M D ref :=
  attempts_to_loop self tasks >>
  ret self.

Definition asks (self : ref) (question : Question D) : M D PyVal :=
  answered_by question self.

Definition has_ability_to (self : ref) (ability_class : pyclass) : M D bool :=
  a <- the_actor self;;
  ret (bool_decide (is_Some (_abilities a !! ability_class))).

Definition ability_to (self : ref) (ability_class : pyclass) : M D ref :=
  has <- has_ability_to self ability_class;;
  if negb has then
    a <- the_actor self;;
    raise (ValueError ("Actor " +:+ name a +:+ " does not have the ability "
                       +:+ cls_name ability_class))
  else
    a <- the_actor self;;
    match _abilities a !! ability_class with
    | Some r => ret r
    | None => raise (KeyError (cls_name ability_class))
    end.

Definition __str__ (self : ref) : M D string :=
  a <- the_actor self;;
  ret ("Actor(" +:+ name a +:+ ")").

Definition __repr__ (self : ref) : M D string := __str__ self.

End methods.

End Actor.

(** ** [questions/visibility.py] and [questions/text.py] *)

Module Visibility.
Section methods.
Context {D : Driver}.

Definition answered_by (locator : string) (actor : ref) : M D PyVal :=
  browse_ability <- Actor.ability_to actor BrowseTheWeb.cls;;
  page <- BrowseTheWeb.page browse_ability;;
  try_except
    (v <- call (is_visible D page locator);; ret (VBool v))
    (VBool false).

Definition of_ (locator : string) : Question D :=
  mkQuestion (answered_by locator).
End methods.
End Visibility.

Module Presence.
Section methods.
Context {D : Driver}.

Definition answered_by (locator : string) (actor : ref) : M D PyVal :=
  browse_ability <- Actor.ability_to actor BrowseTheWeb.cls;;
  page <- BrowseTheWeb.page browse_ability;;
  try_except
    (element <- call (query_selector D page locator);;
     ret (VBool (bool_decide (element ≠ None))))
    (VBool false).

Definition of_ (locator : string) : Question D :=
  mkQuestion (answered_by locator).
End methods.
End Presence.

Module Text.
Section methods.
Context {D : Driver}.

Definition answered_by (locator : string) (actor : ref) : M D PyVal :=
  browse_ability <- Actor.ability_to actor BrowseTheWeb.cls;;
  page <- BrowseTheWeb.page browse_ability;;
  call (wait_for_selector D page locator "visible") >>
  content <- call (text_content D page locator);;
  ret (py_or (of_optional_str content) (VStr "")).

Definition of_ (locator : string) : Question D :=
  mkQuestion (answered_by locator).
End methods.
End Text.

Module CurrentUrl.
Section methods.
Context {D : Driver} (R : PageReads D).

Definition answered_by (actor : ref) : M D PyVal :=
  browse_ability <- Actor.ability_to actor BrowseTheWeb.cls;;
  page <- BrowseTheWeb.page browse_ability;;
  fun w => (w, Ret (VStr (page_url R page (drv w)))).

Definition question : Question D := mkQuestion answered_by.
End methods.
End CurrentUrl.

Module PageTitle.
Section methods.
Context {D : Driver} (R : PageReads D).

Definition answered_by (actor : ref) : M D PyVal :=
  browse_ability <- Actor.ability_to actor BrowseTheWeb.cls;;
  page <- BrowseTheWeb.page browse_ability;;
  t <- call (page_title R page);;
  ret (VStr t).

Definition question : Question D := mkQuestion answered_by.
End methods.
End PageTitle.

(** ** [interactions/] *)

Module Type_.

(** The attributes of a [Type] interaction. *)
Record t := mk {
  text : string;
  locator : string;
  options : gmap string PyVal
}.

(** [__init__]: [self.options = options or {}]; [None] and the empty
    dict are falsy, and both leave an empty dict. *)
Definition new (text locator : string) (options : option (gmap string PyVal)) : t :=
  mk text locator (default ∅ options).

(** [Type.the_text(text).into(locator, **options)] *)
Definition the_text_into (text locator : string) (options : gmap string PyVal) : t :=
  new text locator (Some options).

(** [self.options.get('clear', True)], as the [if] tests it. *)
Definition clear_first (self : t) : bool :=
  truthy (default (VBool true) (options self !! "clear")).

(** [{k: v for k, v in self.options.items() if k != 'clear'}] *)
Definition passed_options (self : t) : gmap string PyVal :=
  filter (fun kv => kv.1 ≠ "clear") (options self).

Section methods.
Context {D : Driver}.

Definition perform_as (self : t) (actor : ref) : M D PyVal :=
  browse_ability <- Actor.ability_to actor BrowseTheWeb.cls;;
  page <- BrowseTheWeb.page browse_ability;;
  call (wait_for_selector D page (locator self) "visible") >>
  (if clear_first self then call (fill D page (locator self) "") else ret tt) >>
  call (type D page (locator self) (text self) (passed_options self)) >>
  ret VNone.

Definition performable (self : t) : Performable D :=
  mkPerformable (perform_as self).
End methods.

End Type_.

Module Click.

Record t := mk {
  locator : string;
  options : gmap string PyVal
}.

(** [Click.on(locator, **options)]; the keyword arguments arrive as a
    dict, which [options or {}] leaves as it is. *)
Definition on (locator : string) (options : gmap string PyVal) : t :=
  mk locator options.

Section methods.
Context {D : Driver}.

Definition perform_as (self : t) (actor : ref) : M D PyVal :=
  browse_ability <- Actor.ability_to actor BrowseTheWeb.cls;;
  page <- BrowseTheWeb.page browse_ability;;
  call (wait_for_selector D page (locator self) "visible") >>
  call (click D page (locator self) (options self)) >>
  ret VNone.

Definition performable (self : t) : Performable D :=
  mkPerformable (perform_as self).
End methods.

End Click.

Module Navigate.

Record t := mk {
  url : string;
  options : gmap string PyVal
}.

(** [Navigate.to(url, **options)] *)
Definition to (url : string) (options : gmap string PyVal) : t :=
  mk url options.

Section methods.
Context {D : Driver}.

Definition perform_as (self : t) (actor : ref) : M D PyVal :=
  browse_ability <- Actor.ability_to actor BrowseTheWeb.cls;;
  page <- BrowseTheWeb.page browse_ability;;
  call (goto D page (url self) (options self)) >>
  call (wait_for_load_state D page "networkidle") >>
  ret VNone.

Definition performable (self : t) : Performable D :=
  mkPerformable (perform_as self).
End methods.

End Navigate.

(** ** [tasks/login.py], with what it reads of [pages/login_page.py] and
    [config/settings.py] *)

Module LoginPageLocators.
Definition USERNAME_FIELD : string := "#username".
Definition PASSWORD_FIELD : string := "#password".
Definition SUBMIT_BUTTON : string := "#submit".
Definition ERROR_MESSAGE : string := "#error".
Definition SUCCESS_MESSAGE : string := ".post-title".
End LoginPageLocators.

Module Settings.

(** [settings.environment], as read from the process environment when the
    module is imported. *)
Record EnvironmentSettings := mkEnvironment {
  base_url : string;
  valid_username : string;
  valid_password : string;
  invalid_username : string;
  invalid_password : string
}.

(** The values the fields take when no environment variable is set. *)
Definition defaults : EnvironmentSettings :=
  mkEnvironment "https://practicetestautomation.com"
    "student" "Password123" "incorrectUser" "incorrectPassword".

Definition get_test_urls (environment : EnvironmentSettings) : gmap string string :=
  {[ "login" := base_url environment +:+ "/practice-test-login/";
     "logged_in" := base_url environment +:+ "/logged-in-successfully/";
     "home" := base_url environment ]}.

Definition get_credentials (environment : EnvironmentSettings)
    : gmap string (gmap string string) :=
  {[ "valid" := {[ "username" := valid_username environment;
                   "password" := valid_password environment ]};
     "invalid" := {[ "username" := invalid_username environment;
                     "password" := invalid_password environment ]} ]}.

End Settings.

(** [d[k]] on a dict with string keys. *)
Definition getitem {D : Driver} {V} (d : gmap string V) (k : string) : M D V :=
  match d !! k with
  | Some v => ret v
  | None => raise (mkExc "KeyError" k)
  end.

Module NavigateToLoginPage.
Section methods.
Context {D : Driver} (settings : Settings.EnvironmentSettings).

Definition perform_as (actor : ref) : M D PyVal :=
  login_url <- getitem (Settings.get_test_urls settings) "login";;
  Actor.attempts_to actor [Navigate.performable (Navigate.to login_url ∅)] >>
  ret VNone.

Definition performable : Performable D := mkPerformable perform_as.
End methods.
End NavigateToLoginPage.

Module EnterCredentials.

Record t := mk {
  username : string;
  password : string
}.

Definition with_values (username password : string) : t := mk username password.

Section methods.
Context {D : Driver}.

Definition perform_as (self : t) (actor : ref) : M D PyVal :=
  Actor.attempts_to actor
    [Type_.performable
       (Type_.the_text_into (username self) LoginPageLocators.USERNAME_FIELD ∅);
     Type_.performable
       (Type_.the_text_into (password self) LoginPageLocators.PASSWORD_FIELD ∅)] >>
  ret VNone.

Definition performable (self : t) : Performable D := mkPerformable (perform_as self).
End methods.
End EnterCredentials.

Module SubmitLoginForm.
Section methods.
Context {D : Driver}.

Definition perform_as (actor : ref) : M D PyVal :=
  Actor.attempts_to actor
    [Click.performable (Click.on LoginPageLocators.SUBMIT_BUTTON ∅)] >>
  ret VNone.

Definition performable : Performable D := mkPerformable perform_as.
End methods.
End SubmitLoginForm.

Module Login.

Record t := mk {
  username : string;
  password : string
}.

Definition with_credentials (username password : string) : t := mk username password.

Section methods.
Context {D : Driver} (settings : Settings.EnvironmentSettings).

(** [with_valid_credentials()] and [with_invalid_credentials()] index the
    dict of [get_credentials()]. *)
Definition with_valid_credentials : M D t :=
  credentials <- getitem (Settings.get_credentials settings) "valid";;
  u <- getitem credentials "username";;
  p <- getitem credentials "password";;
  ret (mk u p).

Definition with_invalid_credentials : M D t :=
  credentials <- getitem (Settings.get_credentials settings) "invalid";;
  u <- getitem credentials "username";;
  p <- getitem credentials "password";;
  ret (mk u p).

Definition perform_as (self : t) (actor : ref) : M D PyVal :=
  login_url <- getitem (Settings.get_test_urls settings) "login";;
  Actor.attempts_to actor
    [Navigate.performable (Navigate.to login_url ∅);
     Type_.performable
       (Type_.the_text_into (username self) LoginPageLocators.USERNAME_FIELD ∅);
     Type_.performable
       (Type_.the_text_into (password self) LoginPageLocators.PASSWORD_FIELD ∅);
     Click.performable (Click.on LoginPageLocators.SUBMIT_BUTTON ∅)] >>
  ret VNone.

Definition performable (self : t) : Performable D := mkPerformable (perform_as self).
End methods.
End Login.

(** ** The actor fixtures of [utils/fixtures.py] *)

Module Fixtures.
Section fixtures.
Context {D : Driver} (R : PageReads D).

(** [Actor("TestUser").who_can(BrowseTheWeb.using_page(page))] *)
Definition actor (page : handle) : M D ref :=
  test_actor <- Actor.new "TestUser";;
  ability <- BrowseTheWeb.using_page R BrowseTheWeb.cls page;;
  Actor.who_can test_actor [ability].

Definition admin_actor (page : handle) : M D ref :=
  admin <- Actor.new "AdminUser";;
  ability <- BrowseTheWeb.using_page R BrowseTheWeb.cls page;;
  Actor.who_can admin [ability].

End fixtures.
End Fixtures.

(** ** A scripted driver

    A stand-in for Playwright in the manner of the repository's unit
    tests, which drive the code with [unittest.mock] objects: every call
    is recorded; a call chosen by [fails] raises, any other answers from
    a fixed document [content] (locator to text content, for the elements
    present). New contexts and pages get handles never handed out
    before. *)

Module Mock.

Inductive Call :=
  | CNewContext (browser : handle)
  | CNewPage (context : handle)
  | CPageClose (page : handle)
  | CContextClose (context : handle)
  | CBrowserClose (browser : handle)
  | CGoto (page : handle) (url : string) (options : gmap string PyVal)
  | CWaitForLoadState (page : handle) (state : string)
  | CWaitForSelector (page : handle) (locator state : string)
  | CClick (page : handle) (locator : string) (options : gmap string PyVal)
  | CFill (page : handle) (locator value : string)
  | CType (page : handle) (locator text : string) (options : gmap string PyVal)
  | CIsVisible (page : handle) (locator : string)
  | CQuerySelector (page : handle) (locator : string)
  | CTextContent (page : handle) (locator : string).

Record state := mkState {
  calls : list Call;
  next_handle : handle
}.

Definition Error : PyExc := mkExc "Error" "driver call failed".

Section driver.
Variable fails : Call -> bool.
Variable content : string -> option (option string).

Definition answer {A} (c : Call) (a : A) (s : state) : state * outcome A :=
  let s' := mkState (calls s ++ [c]) (next_handle s) in
  if fails c then (s', Raise Error) else (s', Ret a).

Definition create (c : Call) (s : state) : state * outcome handle :=
  if fails c then (mkState (calls s ++ [c]) (next_handle s), Raise Error)
  else (mkState (calls s ++ [c]) (S (next_handle s)), Ret (next_handle s)).

Definition driver : Driver := {|
  dstate := state;
  new_context b := create (CNewContext b);
  new_page c := create (CNewPage c);
  page_close p := answer (CPageClose p) tt;
  context_close c := answer (CContextClose c) tt;
  browser_close b := answer (CBrowserClose b) tt;
  goto p u o := answer (CGoto p u o) tt;
  wait_for_load_state p st := answer (CWaitForLoadState p st) tt;
  wait_for_selector p l st := answer (CWaitForSelector p l st) tt;
  click p l o := answer (CClick p l o) tt;
  fill p l v := answer (CFill p l v) tt;
  type p l t o := answer (CType p l t o) tt;
  is_visible p l := answer (CIsVisible p l) (bool_decide (is_Some (content l)));
  query_selector p l :=
    answer (CQuerySelector p l) (match content l with Some _ => Some 0 | None => None end);
  text_content p l :=
    answer (CTextContent p l) (match content l with Some t => t | None => None end)
|}.
End driver.

(** The driver in which every call succeeds on an empty document. *)
Definition quiet : Driver := driver (fun _ => false) (fun _ => None).

End Mock.

(** ** Vocabulary of the statements *)

(** [performed_in_order actor ps w w']: starting in [w], calling
    [perform_as(actor)] on each element of [ps], first to last, each call
    returning normally, ends in [w']. *)
Inductive performed_in_order {D : Driver} (actor : ref) :
    list (Performable D) -> world D -> world D -> Prop :=
  | performed_none w :
      performed_in_order actor [] w w
  | performed_next p ps w w1 v w2 :
      perform_as p actor w = (w1, Ret v) ->
      performed_in_order actor ps w1 w2 ->
      performed_in_order actor (p :: ps) w w2.

(** The object that [X.as_actor(actor)] constructs from [X]. *)
Definition bound_copy (bx : BrowseTheWebObj) (actor : ref) : obj :=
  OBrowse (mkBrowse BrowseTheWeb.cls (_browser bx) (_context bx) (_page bx) (Some actor)).

(** [m] leaves every object other than [self] as it was. *)
Definition frames {D : Driver} {A} (self : ref) (m : M D A) : Prop :=
  forall (w : world D) (r : ref), r ≠ self -> heap (m w).1 !! r = heap w !! r.

(** The members of [BrowseTheWeb] that create or close a context or a
    page, and a caller that uses them one after the other on one
    instance, going on after any that raises. *)
Inductive BrowseOp :=
  | GetContext
  | GetPage
  | NewPage
  | ClosePage
  | CloseContext
  | CloseBrowser.

Definition run_op {D : Driver} (op : BrowseOp) (self : ref) : M D unit :=
  match op with
  | GetContext => BrowseTheWeb.context self >> ret tt
  | GetPage => BrowseTheWeb.page self >> ret tt
  | NewPage => BrowseTheWeb.new_page self >> ret tt
  | ClosePage => BrowseTheWeb.close_page self
  | CloseContext => BrowseTheWeb.close_context self
  | CloseBrowser => BrowseTheWeb.close_browser self
  end.

Fixpoint run_ops {D : Driver} (ops : list BrowseOp) (self : ref) (w : world D) : world D :=
  match ops with
  | [] => w
  | op :: rest => run_ops rest self (run_op op self w).1
  end.

(** Driver calls made one after the other, up to the first that raises. *)
Fixpoint run_calls {D : Driver}
    (cs : list (dstate D -> dstate D * outcome unit)) (d : dstate D)
    : dstate D * outcome unit :=
  match cs with
  | [] => (d, Ret tt)
  | c :: rest =>
      match c d with
      | (d', Ret _) => run_calls rest d'
      | (d', Raise e) => (d', Raise e)
      end
  end.

(** An interaction that only talks to the driver: the calls [cs] in
    order, [None] when all return, the exception of the first that
    raises otherwise. *)
Definition driver_only {D : Driver}
    (cs : list (dstate D -> dstate D * outcome unit)) : M D PyVal :=
  fun w =>
    match run_calls cs (drv w) with
    | (d, Ret _) => (mkWorld (heap w) d, Ret VNone)
    | (d, Raise e) => (mkWorld (heap w) d, Raise e)
    end.

(** In [h], [actor] holds a [BrowseTheWeb] ability whose cached page is
    [p]. *)
Definition holds_page (h : gmap ref obj) (actor : ref) (p : handle) : Prop :=
  exists a r b,
    h !! actor = Some (OActor a) /\
    _abilities a !! BrowseTheWeb.cls = Some r /\
    h !! r = Some (OBrowse b) /\
    _page b = Some p.

(** ** Worlds used as concrete inputs *)

Module Examples.

(** Nothing allocated yet; the scripted driver will hand out handles
    from 10 on. *)
Definition empty_world (D : Driver) (d : dstate D) : world D := mkWorld ∅ d.

Definition quiet_start : world Mock.quiet :=
  empty_world Mock.quiet (Mock.mkState [] 10).

(** [Actor("TestUser")] alone, at reference 1. *)
Definition lone_actor : world Mock.quiet :=
  Eval vm_compute in (Actor.new "TestUser" quiet_start).1.

(** [Actor("TestUser")] at reference 1 and the unbound
    [BrowseTheWeb(7, 8, 9)] at reference 2. *)
Definition actor_and_ability : world Mock.quiet :=
  Eval vm_compute in
    (BrowseTheWeb.new BrowseTheWeb.cls 7 (Some 8) (Some 9) lone_actor).1.

(** A driver whose [click] raises. *)
Definition click_fails : Driver :=
  Mock.driver (fun c => match c with Mock.CClick _ _ _ => true | _ => false end)
              (fun _ => None).

(** [TestUser] granted [BrowseTheWeb(7, 8, 9)] on that driver. *)
Definition granted_click_fails : world click_fails :=
  Eval vm_compute in
    ((a <- Actor.new "TestUser";;
      x <- BrowseTheWeb.new BrowseTheWeb.cls 7 (Some 8) (Some 9);;
      Actor.who_can a [x])
     (empty_world click_fails (Mock.mkState [] 10))).1.

(** [class AdminBrowseTheWeb(BrowseTheWeb): pass] *)
Definition AdminBrowseTheWeb : pyclass :=
  mkClass 4 "AdminBrowseTheWeb" [cls_id BrowseTheWeb.cls; cls_id BrowseTheWeb.Ability_cls].

(** [TestUser] at reference 1 and an unbound [AdminBrowseTheWeb(7)] at
    reference 2. *)
Definition actor_and_admin_ability : world Mock.quiet :=
  Eval vm_compute in (BrowseTheWeb.using_ AdminBrowseTheWeb 7 lone_actor).1.

(** [TestUser] at 1, [BrowseTheWeb(7, 8, 9)] at 2 and
    [BrowseTheWeb(4, 5, 6)] at 3. *)
Definition actor_and_two_abilities : world Mock.quiet :=
  Eval vm_compute in
    (BrowseTheWeb.new BrowseTheWeb.cls 4 (Some 5) (Some 6) actor_and_ability).1.

(** An unbound [BrowseTheWeb(7, 8, 9)] alone, at reference 1. *)
Definition lone_ability : world Mock.quiet :=
  Eval vm_compute in
    (BrowseTheWeb.new BrowseTheWeb.cls 7 (Some 8) (Some 9) quiet_start).1.

(** [TestUser] (reference 1) granted [BrowseTheWeb(7, 8, 9)]
    (reference 2; the bound copy is at reference 3) on any driver. *)
Definition granted (D : Driver) (d : dstate D) : world D :=
  ((a <- Actor.new "TestUser";;
    x <- BrowseTheWeb.new BrowseTheWeb.cls 7 (Some 8) (Some 9);;
    Actor.who_can a [x])
   (empty_world D d)).1.

(** A driver on which the element ["#error"] exists and every
    [is_visible] and [query_selector] raises. *)
Definition probes_fail : Driver :=
  Mock.driver
    (fun c => match c with
              | Mock.CIsVisible _ _ | Mock.CQuerySelector _ _ => true
              | _ => false
              end)
    (fun l => if String.eqb l "#error" then Some (Some "Your username is invalid!")
              else None).

Definition granted_probes_fail : world probes_fail :=
  Eval vm_compute in granted probes_fail (Mock.mkState [] 10).

(** A driver on which the element ["#flash"] exists and has no text
    content. *)
Definition no_text : Driver :=
  Mock.driver (fun _ => false)
    (fun l => if String.eqb l "#flash" then Some None else None).

Definition granted_no_text : world no_text :=
  Eval vm_compute in granted no_text (Mock.mkState [] 10).

Definition granted_quiet : world Mock.quiet :=
  Eval vm_compute in granted Mock.quiet (Mock.mkState [] 10).

(** [Type.the_text("student").into("#username", clear=False, delay=5)] *)
Definition typing_without_clear : Type_.t :=
  Type_.the_text_into "student" "#username"
    {["clear" := VBool false; "delay" := VInt 5]}.

(** [TestUser] at 1, [AdminUser] at 2 and [BrowseTheWeb(7, 8, 9)] at
    3. *)
Definition two_actors_and_ability : world Mock.quiet :=
  Eval vm_compute in
    ((Actor.new "TestUser" >> Actor.new "AdminUser" >>
      BrowseTheWeb.new BrowseTheWeb.cls 7 (Some 8) (Some 9)) quiet_start).1.

(** [BrowseTheWeb.using(7)] alone, at reference 1, before and after the
    first read of [context] and of [page]. *)
Definition unused_ability : world Mock.quiet :=
  Eval vm_compute in (BrowseTheWeb.using_ BrowseTheWeb.cls 7 quiet_start).1.

Definition ability_with_context : world Mock.quiet :=
  Eval vm_compute in (BrowseTheWeb.context 1%positive unused_ability).1.

Definition ability_with_page : world Mock.quiet :=
  Eval vm_compute in (BrowseTheWeb.page 1%positive unused_ability).1.

(** A driver whose [new_page] raises, and [BrowseTheWeb.using(7)] on
    it. *)
Definition new_page_fails : Driver :=
  Mock.driver (fun c => match c with Mock.CNewPage _ => true | _ => false end)
              (fun _ => None).

Definition unused_ability_new_page_fails : world new_page_fails :=
  Eval vm_compute in
    (BrowseTheWeb.using_ BrowseTheWeb.cls 7
       (empty_world new_page_fails (Mock.mkState [] 10))).1.

(** A driver whose [close()] raises on pages and contexts, and
    [BrowseTheWeb(7, 8, 9)] on it. *)
Definition closing_fails : Driver :=
  Mock.driver
    (fun c => match c with
              | Mock.CPageClose _ | Mock.CContextClose _ => true
              | _ => false
              end)
    (fun _ => None).

Definition lone_ability_closing_fails : world closing_fails :=
  Eval vm_compute in
    (BrowseTheWeb.new BrowseTheWeb.cls 7 (Some 8) (Some 9)
       (empty_world closing_fails (Mock.mkState [] 10))).1.

(** Page reads for the scripted driver: every page belongs to context 8
    of browser 7 and shows the login page. *)
Definition reads (D : Driver) : PageReads D :=
  mkPageReads D (fun _ => 8) (fun _ => 7)
    (fun _ _ => "https://practicetestautomation.com/practice-test-login/")
    (fun _ d => (d, Ret "Test Login | Practice Test Automation")).

(** Three interactions on the driver whose [click] raises. *)

Definition typing : Performable click_fails :=
  Type_.performable (Type_.the_text_into "student" "#username" {["delay" := VInt 5]}).
Definition clicking : Performable click_fails :=
  Click.performable (Click.on "#submit" ∅).
Definition navigating : Performable click_fails :=
  Navigate.performable (Navigate.to "https://example.com" ∅).

Definition after_typing : world click_fails :=
  Eval vm_compute in (perform_as typing 1%positive granted_click_fails).1.
Definition after_click : world click_fails :=
  Eval vm_compute in (perform_as clicking 1%positive after_typing).1.

End Examples.

(** ** Properties *)

Section monad_facts.
Context {D : Driver}.

Lemma the_actor_at (w : world D) self a :
  heap w !! self = Some (OActor a) -> the_actor self w = (w, Ret a).
Proof. intros H. unfold the_actor. by rewrite H. Qed.

Lemma the_browse_at (w : world D) self b :
  heap w !! self = Some (OBrowse b) -> the_browse self w = (w, Ret b).
Proof. intros H. unfold the_browse. by rewrite H. Qed.

End monad_facts.

Section actor_facts.
Context {D : Driver}.

Lemma attempts_to_loop_all (actor : ref) (ps : list (Performable D)) w w' :
  performed_in_order actor ps w w' ->
  Actor.attempts_to_loop actor ps w = (w', Ret tt).
Proof.
  induction 1 as [|p ps w w1 v w2 Hp _ IH]; [done|].
  simpl. unfold bind at 1. by rewrite Hp.
Qed.

Lemma attempts_to_loop_app (actor : ref) (ps qs : list (Performable D)) w w' :
  performed_in_order actor ps w w' ->
  Actor.attempts_to_loop actor (ps ++ qs) w = Actor.attempts_to_loop actor qs w'.
Proof.
  induction 1 as [|p ps w w1 v w2 Hp _ IH]; [done|].
  simpl. unfold bind at 1. by rewrite Hp.
Qed.

(** C1. For every actor and every list of performables, [attempts_to]
    calls [perform_as(actor)] on them in the order given: when the
    performables of [ps] all return, one after the other, the call ends
    in the world they lead to and returns the actor itself; when the
    performable that comes next raises, [attempts_to] on the longer
    list raises that very exception in the world where it was raised,
    whatever performables [rest] come after it (none of them is run). *)
Theorem attempts_to_in_order_until_failure
    (actor : ref) (ps : list (Performable D)) (w w1 : world D) :
  performed_in_order actor ps w w1 ->
  Actor.attempts_to actor ps w = (w1, Ret actor) /\
  (forall p rest w2 e,
      perform_as p actor w1 = (w2, Raise e) ->
      Actor.attempts_to actor (ps ++ p :: rest) w = (w2, Raise e)).
Proof.
  intros Hps. split.
  - unfold Actor.attempts_to, bind.
    by rewrite (attempts_to_loop_all _ _ _ _ Hps).
  - intros p rest w2 e Hp.
    unfold Actor.attempts_to, bind.
    rewrite (attempts_to_loop_app _ _ _ _ _ Hps). simpl.
    unfold bind. by rewrite Hp.
Qed.

(** Every run of [attempts_to] is one of the two cases above. *)
Lemma attempts_to_cases (actor : ref) (tasks : list (Performable D)) (w : world D) :
  (exists w', performed_in_order actor tasks w w' /\
              Actor.attempts_to actor tasks w = (w', Ret actor)) \/
  (exists (ps : list (Performable D)) p rest w1 w2 e,
      tasks = ps ++ p :: rest /\
      performed_in_order actor ps w w1 /\
      perform_as p actor w1 = (w2, Raise e) /\
      Actor.attempts_to actor tasks w = (w2, Raise e)).
Proof.
  revert w. induction tasks as [|p tasks IH]; intros w.
  - left. exists w. split; [constructor | done].
  - destruct (perform_as p actor w) as [w1 [v|e]] eqn:Hp.
    + destruct (IH w1) as [(w' & Hall & Hrun) | (ps & q & rest & wa & wb & e & -> & Hps & Hq & Hrun)].
      * left. exists w'. split; [by econstructor|].
        unfold Actor.attempts_to, bind in *. simpl. unfold bind at 1.
        by rewrite Hp.
      * right. exists (p :: ps), q, rest, wa, wb, e.
        split_and!; [done | by econstructor | done |].
        unfold Actor.attempts_to, bind in *. simpl. unfold bind at 1.
        by rewrite Hp.
    + right. exists [], p, tasks, w, w1, e.
      split_and!; [done | constructor | done |].
      unfold Actor.attempts_to, bind. simpl. unfold bind. by rewrite Hp.
Qed.

End actor_facts.

(** On a driver whose [click] raises, typing succeeds, the click raises,
    and the navigation after it is never issued: the driver's record of
    calls ends with the click. *)
Lemma attempts_to_in_order_until_failure_witness :
  performed_in_order 1%positive [Examples.typing]
    Examples.granted_click_fails Examples.after_typing /\
  Actor.attempts_to 1%positive [Examples.typing] Examples.granted_click_fails
    = (Examples.after_typing, Ret 1%positive) /\
  Actor.attempts_to 1%positive
    [Examples.typing; Examples.clicking; Examples.navigating]
    Examples.granted_click_fails
    = (Examples.after_click, Raise Mock.Error) /\
  Mock.calls (drv Examples.after_click)
    = [Mock.CWaitForSelector 9 "#username" "visible";
       Mock.CFill 9 "#username" "";
       Mock.CType 9 "#username" "student" {["delay" := VInt 5]};
       Mock.CWaitForSelector 9 "#submit" "visible";
       Mock.CClick 9 "#submit" ∅].
Proof.
  assert (H : performed_in_order 1%positive [Examples.typing]
                Examples.granted_click_fails Examples.after_typing).
  { apply (performed_next _ _ _ _ Examples.after_typing VNone);
      [vm_compute; reflexivity | constructor]. }
  destruct (attempts_to_in_order_until_failure _ _ _ _ H) as [Hall Hfail].
  split_and!; [exact H | exact Hall | | vm_compute; reflexivity].
  apply (Hfail Examples.clicking [Examples.navigating]).
  vm_compute. reflexivity.
Defined.

Section ability_lookup.
Context {D : Driver}.

Lemma append_assoc (s1 s2 s3 : string) :
  (s1 +:+ s2) +:+ s3 = s1 +:+ s2 +:+ s3.
Proof.
  induction s1 as [|c s1 IH]; [reflexivity|].
  change (String c ((s1 +:+ s2) +:+ s3) = String c (s1 +:+ s2 +:+ s3)).
  by rewrite IH.
Qed.

Lemma append_empty_r (s : string) : s +:+ "" = s.
Proof.
  induction s as [|c s IH]; [reflexivity|].
  change (String c (s +:+ "") = String c s).
  by rewrite IH.
Qed.

Lemma has_ability_to_at (w : world D) self a K :
  heap w !! self = Some (OActor a) ->
  Actor.has_ability_to self K w
    = (w, Ret (bool_decide (is_Some (_abilities a !! K)))).
Proof.
  intros H. unfold Actor.has_ability_to, bind.
  by rewrite (the_actor_at _ _ _ H).
Qed.

Lemma ability_to_found (w : world D) self a K r :
  heap w !! self = Some (OActor a) ->
  _abilities a !! K = Some r ->
  Actor.ability_to self K w = (w, Ret r).
Proof.
  intros H HK. unfold Actor.ability_to, bind at 1.
  rewrite (has_ability_to_at _ _ _ _ H), HK.
  rewrite bool_decide_eq_true_2 by eauto. simpl.
  unfold bind. by rewrite (the_actor_at _ _ _ H), HK.
Qed.

Lemma ability_to_missing (w : world D) self a K :
  heap w !! self = Some (OActor a) ->
  _abilities a !! K = None ->
  Actor.ability_to self K w
    = (w, Raise (Actor.ValueError
                   ("Actor " +:+ name a +:+ " does not have the ability "
                    +:+ cls_name K))).
Proof.
  intros H HK. unfold Actor.ability_to, bind at 1.
  rewrite (has_ability_to_at _ _ _ _ H), HK.
  rewrite bool_decide_eq_false_2 by (intros [? ?]; done). simpl.
  unfold bind. by rewrite (the_actor_at _ _ _ H).
Qed.

(** C2, as amended. For every actor and every ability class that is
    not a key of the actor's [_abilities], [ability_to] raises the
    built-in [ValueError] (the code has no error class of its own for
    this case), and the message names both the actor and the class. *)
Theorem ability_to_missing_raises_ValueError
    (w : world D) (self : ref) (a : ActorObj) (K : pyclass) :
  heap w !! self = Some (OActor a) ->
  _abilities a !! K = None ->
  exists msg,
    Actor.ability_to self K w = (w, Raise (mkExc "ValueError" msg)) /\
    msg = "Actor " +:+ name a +:+ " does not have the ability " +:+ cls_name K /\
    mentions msg (name a) /\
    mentions msg (cls_name K).
Proof.
  intros H HK. eexists. split_and!; [by apply ability_to_missing | done | |].
  - by exists "Actor ", (" does not have the ability " +:+ cls_name K).
  - exists ("Actor " +:+ name a +:+ " does not have the ability "), "".
    by rewrite append_empty_r, !append_assoc.
Qed.

End ability_lookup.

Lemma ability_to_missing_raises_ValueError_witness :
  heap Examples.lone_actor !! 1%positive = Some (OActor (mkActor "TestUser" ∅)) /\
  (∅ : gmap pyclass ref) !! BrowseTheWeb.cls = None /\
  exists msg,
    Actor.ability_to 1%positive BrowseTheWeb.cls Examples.lone_actor
      = (Examples.lone_actor, Raise (mkExc "ValueError" msg)) /\
    msg = "Actor TestUser does not have the ability BrowseTheWeb" /\
    mentions msg "TestUser" /\
    mentions msg "BrowseTheWeb".
Proof.
  split; [vm_compute; reflexivity|]. split; [vm_compute; reflexivity|].
  apply (ability_to_missing_raises_ValueError
           Examples.lone_actor 1%positive (mkActor "TestUser" ∅) BrowseTheWeb.cls);
    vm_compute; reflexivity.
Defined.

(** C2 with [MissingAbilityError] for the error class does not hold:
    [Actor("TestUser")], granted nothing and asked for [BrowseTheWeb],
    raises no exception of that class (it raises a [ValueError]). *)
Lemma ability_to_missing_not_MissingAbilityError :
  ~ exists e,
      (Actor.ability_to 1%positive BrowseTheWeb.cls Examples.lone_actor).2 = Raise e /\
      exc_type e = "MissingAbilityError".
Proof.
  intros (e & He & Hty). vm_compute in He.
  injection He as <-. discriminate Hty.
Qed.

Section granting.
Context {D : Driver}.

Lemma fresh_not_allocated (w : world D) r o :
  heap w !! r = Some o -> fresh (dom (heap w)) ≠ r.
Proof.
  intros H Heq. apply (is_fresh (dom (heap w))).
  rewrite Heq. apply elem_of_dom. eauto.
Qed.

Lemma as_actor_run (w : world D) x bx actor :
  heap w !! x = Some (OBrowse bx) ->
  BrowseTheWeb.as_actor x actor w
    = (mkWorld (<[fresh (dom (heap w)) := bound_copy bx actor]> (heap w)) (drv w),
       Ret (fresh (dom (heap w)))).
Proof.
  intros Hx. unfold BrowseTheWeb.as_actor, bind at 1.
  rewrite (the_browse_at _ _ _ Hx).
  unfold bind at 1, BrowseTheWeb.new, alloc. cbn [heap drv].
  unfold bind at 1, BrowseTheWeb.set_actor, bind, the_browse, store, ret.
  cbn [heap drv]. rewrite lookup_insert_eq. cbn.
  by rewrite insert_insert_eq.
Qed.

Lemma who_can_one_run (w : world D) self a x bx :
  heap w !! self = Some (OActor a) ->
  heap w !! x = Some (OBrowse bx) ->
  Actor.who_can self [x] w
    = (mkWorld
         (<[self := OActor (mkActor (name a)
                       (<[ob_class bx := fresh (dom (heap w))]> (_abilities a)))]>
            (<[fresh (dom (heap w)) := bound_copy bx self]> (heap w)))
         (drv w),
       Ret self).
Proof.
  intros Hself Hx.
  pose proof (fresh_not_allocated _ _ _ Hself) as Hne1.
  pose proof (fresh_not_allocated _ _ _ Hx) as Hne2.
  unfold Actor.who_can, bind at 1. cbn [Actor.who_can_loop].
  unfold bind at 1. rewrite (as_actor_run _ _ _ _ Hx).
  unfold bind at 1, Actor.type_of. cbn [heap drv].
  rewrite lookup_insert_ne, Hx by done.
  unfold bind at 1, Actor.set_ability, bind at 1, the_actor. cbn [heap drv].
  rewrite lookup_insert_ne, Hself by done.
  unfold store. by cbn.
Qed.

(** C4. For every actor [A] and every ability instance [X], after
    [A.who_can(X)] the call [A.ability_to(type(X))] returns a reference
    [r] to a newly constructed object: [r] was not allocated before and
    is not [X]; the object at [r] has [X]'s browser, context and page
    handles and [A] as its [_actor]; the object [X] is what it was
    before the grant, its own [_actor] included. *)
Theorem ability_to_returns_bound_copy
    (w : world D) (A x : ref) (a : ActorObj) (bx : BrowseTheWebObj) :
  heap w !! A = Some (OActor a) ->
  heap w !! x = Some (OBrowse bx) ->
  exists w' r,
    Actor.who_can A [x] w = (w', Ret A) /\
    Actor.ability_to A (ob_class bx) w' = (w', Ret r) /\
    r ≠ x /\
    heap w !! r = None /\
    heap w' !! r
      = Some (OBrowse (mkBrowse BrowseTheWeb.cls
                         (_browser bx) (_context bx) (_page bx) (Some A))) /\
    heap w' !! x = Some (OBrowse bx).
Proof.
  intros HA Hx.
  pose proof (fresh_not_allocated _ _ _ HA) as Hne1.
  pose proof (fresh_not_allocated _ _ _ Hx) as Hne2.
  assert (A ≠ x) as Hne3 by (intros ->; congruence).
  eexists _, (fresh (dom (heap w))).
  split; [by apply who_can_one_run|].
  split_and!.
  - eapply ability_to_found; cbn [heap].
    + apply lookup_insert_eq.
    + cbn. apply lookup_insert_eq.
  - done.
  - apply not_elem_of_dom, is_fresh.
  - cbn [heap]. by rewrite lookup_insert_ne, lookup_insert_eq.
  - cbn [heap]. by rewrite !lookup_insert_ne.
Qed.

End granting.

Lemma ability_to_returns_bound_copy_witness :
  heap Examples.actor_and_ability !! 1%positive
    = Some (OActor (mkActor "TestUser" ∅)) /\
  heap Examples.actor_and_ability !! 2%positive
    = Some (OBrowse (mkBrowse BrowseTheWeb.cls 7 (Some 8) (Some 9) None)) /\
  exists w' r,
    Actor.who_can 1%positive [2%positive] Examples.actor_and_ability
      = (w', Ret 1%positive) /\
    Actor.ability_to 1%positive BrowseTheWeb.cls w' = (w', Ret r) /\
    r ≠ 2%positive /\
    heap Examples.actor_and_ability !! r = None /\
    heap w' !! r
      = Some (OBrowse (mkBrowse BrowseTheWeb.cls 7 (Some 8) (Some 9) (Some 1%positive))) /\
    heap w' !! 2%positive
      = Some (OBrowse (mkBrowse BrowseTheWeb.cls 7 (Some 8) (Some 9) None)).
Proof.
  split; [vm_compute; reflexivity|]. split; [vm_compute; reflexivity|].
  apply (ability_to_returns_bound_copy Examples.actor_and_ability
           1%positive 2%positive (mkActor "TestUser" ∅)
           (mkBrowse BrowseTheWeb.cls 7 (Some 8) (Some 9) None));
    vm_compute; reflexivity.
Defined.

Section regranting.
Context {D : Driver}.

(** C8. For every actor [A] and every two ability instances [X1] and
    [X2] of one class [K], after [A.who_can(X1)] and then
    [A.who_can(X2)] the call [A.ability_to(K)] returns the object bound
    from [X2] (a different object from the one the first grant stored),
    and [A._abilities] is the original dict with the single key [K]
    set to it: the earlier grant is replaced. *)
Theorem later_grant_replaces_earlier
    (w : world D) (A x1 x2 : ref) (a : ActorObj)
    (b1 b2 : BrowseTheWebObj) (K : pyclass) :
  heap w !! A = Some (OActor a) ->
  heap w !! x1 = Some (OBrowse b1) ->
  heap w !! x2 = Some (OBrowse b2) ->
  ob_class b1 = K ->
  ob_class b2 = K ->
  exists w1 w2 r1 r2,
    Actor.who_can A [x1] w = (w1, Ret A) /\
    Actor.ability_to A K w1 = (w1, Ret r1) /\
    Actor.who_can A [x2] w1 = (w2, Ret A) /\
    Actor.ability_to A K w2 = (w2, Ret r2) /\
    r2 ≠ r1 /\
    heap w2 !! r2 = Some (bound_copy b2 A) /\
    heap w2 !! A
      = Some (OActor (mkActor (name a) (<[K := r2]> (_abilities a)))).
Proof.
  intros HA H1 H2 <- HK.
  pose proof (fresh_not_allocated _ _ _ HA) as Hne1.
  pose proof (fresh_not_allocated _ _ _ H2) as Hne2.
  assert (A ≠ x2) as Hne3 by (intros ->; congruence).
  set (r1 := fresh (dom (heap w))) in *.
  set (a1 := mkActor (name a) (<[ob_class b1 := r1]> (_abilities a))).
  set (w1 := mkWorld (<[A := OActor a1]> (<[r1 := bound_copy b1 A]> (heap w))) (drv w)).
  assert (heap w1 !! A = Some (OActor a1)) as HA1 by apply lookup_insert_eq.
  assert (heap w1 !! x2 = Some (OBrowse b2)) as H21.
  { unfold w1. cbn [heap]. by rewrite !lookup_insert_ne. }
  assert (heap w1 !! r1 = Some (bound_copy b1 A)) as Hr1.
  { unfold w1. cbn [heap]. by rewrite lookup_insert_ne, lookup_insert_eq. }
  pose proof (fresh_not_allocated _ _ _ HA1) as Hne4.
  pose proof (fresh_not_allocated _ _ _ Hr1) as Hne5.
  set (r2 := fresh (dom (heap w1))) in *.
  eexists w1, _, r1, r2.
  split; [by apply who_can_one_run|].
  split; [eapply ability_to_found; [exact HA1 | apply lookup_insert_eq]|].
  split; [by apply who_can_one_run|].
  split_and!.
  - eapply ability_to_found; cbn [heap].
    + apply lookup_insert_eq.
    + cbn. rewrite HK. apply lookup_insert_eq.
  - done.
  - cbn [heap]. by rewrite lookup_insert_ne, lookup_insert_eq.
  - cbn [heap]. rewrite lookup_insert_eq. unfold a1. cbn.
    by rewrite HK, insert_insert_eq.
Qed.

Lemma proper_subclass_distinct (S B : pyclass) :
  proper_subclass S B = true -> S ≠ B.
Proof.
  unfold proper_subclass. intros H ->.
  apply andb_true_iff in H as [_ H].
  by rewrite bool_decide_eq_true_2 in H.
Qed.

(** C9. Abilities are looked up by the exact class of the instance
    granted: for every actor [A] with no abilities yet that is granted
    an instance of a class [S], and every class [B] of which [S] is a
    proper subclass, [A.has_ability_to(B)] is false and
    [A.ability_to(B)] raises, while [A.has_ability_to(S)] is true. *)
Theorem abilities_keyed_by_exact_class
    (w : world D) (A x : ref) (nm : string) (bx : BrowseTheWebObj)
    (S B : pyclass) :
  heap w !! A = Some (OActor (mkActor nm ∅)) ->
  heap w !! x = Some (OBrowse bx) ->
  ob_class bx = S ->
  proper_subclass S B = true ->
  exists w',
    Actor.who_can A [x] w = (w', Ret A) /\
    Actor.has_ability_to A B w' = (w', Ret false) /\
    Actor.ability_to A B w'
      = (w', Raise (mkExc "ValueError"
                      ("Actor " +:+ nm +:+ " does not have the ability "
                       +:+ cls_name B))) /\
    Actor.has_ability_to A S w' = (w', Ret true).
Proof.
  intros HA Hx <- Hsub.
  apply proper_subclass_distinct in Hsub.
  eexists. split; [by apply who_can_one_run|].
  match goal with |- context [mkWorld (<[A := OActor ?a1]> _) _] => set (a' := a1) end.
  match goal with |- context [mkWorld ?h _] => set (h' := h) end.
  assert (h' !! A = Some (OActor a')) as HA' by apply lookup_insert_eq.
  assert (_abilities a' !! B = None) as HB.
  { unfold a'. cbn. by rewrite lookup_insert_ne, lookup_empty. }
  split_and!.
  - rewrite (has_ability_to_at _ _ a') by done.
    rewrite HB. by rewrite bool_decide_eq_false_2 by (intros [? ?]; done).
  - by rewrite (ability_to_missing _ _ a') by done.
  - rewrite (has_ability_to_at _ _ a') by done.
    unfold a'. cbn. rewrite lookup_insert_eq.
    by rewrite bool_decide_eq_true_2 by eauto.
Qed.

End regranting.

Lemma later_grant_replaces_earlier_witness :
  heap Examples.actor_and_two_abilities !! 1%positive
    = Some (OActor (mkActor "TestUser" ∅)) /\
  heap Examples.actor_and_two_abilities !! 2%positive
    = Some (OBrowse (mkBrowse BrowseTheWeb.cls 7 (Some 8) (Some 9) None)) /\
  heap Examples.actor_and_two_abilities !! 3%positive
    = Some (OBrowse (mkBrowse BrowseTheWeb.cls 4 (Some 5) (Some 6) None)) /\
  exists w1 w2 r1 r2,
    Actor.who_can 1%positive [2%positive] Examples.actor_and_two_abilities
      = (w1, Ret 1%positive) /\
    Actor.ability_to 1%positive BrowseTheWeb.cls w1 = (w1, Ret r1) /\
    Actor.who_can 1%positive [3%positive] w1 = (w2, Ret 1%positive) /\
    Actor.ability_to 1%positive BrowseTheWeb.cls w2 = (w2, Ret r2) /\
    r2 ≠ r1 /\
    heap w2 !! r2
      = Some (OBrowse (mkBrowse BrowseTheWeb.cls 4 (Some 5) (Some 6) (Some 1%positive))) /\
    heap w2 !! 1%positive
      = Some (OActor (mkActor "TestUser" (<[BrowseTheWeb.cls := r2]> ∅))).
Proof.
  split; [vm_compute; reflexivity|].
  split; [vm_compute; reflexivity|].
  split; [vm_compute; reflexivity|].
  apply (later_grant_replaces_earlier Examples.actor_and_two_abilities
           1%positive 2%positive 3%positive (mkActor "TestUser" ∅)
           (mkBrowse BrowseTheWeb.cls 7 (Some 8) (Some 9) None)
           (mkBrowse BrowseTheWeb.cls 4 (Some 5) (Some 6) None)
           BrowseTheWeb.cls);
    vm_compute; reflexivity.
Defined.

Lemma abilities_keyed_by_exact_class_witness :
  heap Examples.actor_and_admin_ability !! 1%positive
    = Some (OActor (mkActor "TestUser" ∅)) /\
  heap Examples.actor_and_admin_ability !! 2%positive
    = Some (OBrowse (mkBrowse Examples.AdminBrowseTheWeb 7 None None None)) /\
  proper_subclass Examples.AdminBrowseTheWeb BrowseTheWeb.cls = true /\
  exists w',
    Actor.who_can 1%positive [2%positive] Examples.actor_and_admin_ability
      = (w', Ret 1%positive) /\
    Actor.has_ability_to 1%positive BrowseTheWeb.cls w' = (w', Ret false) /\
    Actor.ability_to 1%positive BrowseTheWeb.cls w'
      = (w', Raise (mkExc "ValueError"
                      "Actor TestUser does not have the ability BrowseTheWeb")) /\
    Actor.has_ability_to 1%positive Examples.AdminBrowseTheWeb w' = (w', Ret true).
Proof.
  split; [vm_compute; reflexivity|].
  split; [vm_compute; reflexivity|].
  split; [vm_compute; reflexivity|].
  apply (abilities_keyed_by_exact_class Examples.actor_and_admin_ability
           1%positive 2%positive "TestUser"
           (mkBrowse Examples.AdminBrowseTheWeb 7 None None None)
           Examples.AdminBrowseTheWeb BrowseTheWeb.cls);
    vm_compute; reflexivity.
Defined.

Section isolation.
Context {D : Driver}.

Lemma frames_ret {A} self (a : A) : frames (D:=D) self (ret a).
Proof. by intros w r _. Qed.

Lemma frames_bind {A B} self (m : M D A) (k : A -> M D B) :
  frames self m -> (forall a, frames self (k a)) -> frames self (bind m k).
Proof.
  intros Hm Hk w r Hr. unfold bind.
  specialize (Hm w r Hr).
  destruct (m w) as [w1 [a|e]]; [|done].
  by rewrite (Hk a w1 r Hr).
Qed.

Lemma frames_call {A} self (f : dstate D -> dstate D * outcome A) :
  frames self (call f).
Proof. intros w r _. unfold call. by destruct (f (drv w)). Qed.

Lemma frames_the_browse self : frames (D:=D) self (the_browse self).
Proof. intros w r _. unfold the_browse. by repeat case_match. Qed.

Lemma frames_store self o : frames (D:=D) self (store self o).
Proof. intros w r Hr. unfold store. cbn. by rewrite lookup_insert_ne. Qed.

Lemma frames_set_context self v : frames (D:=D) self (BrowseTheWeb.set_context self v).
Proof.
  apply frames_bind; [apply frames_the_browse | intros; apply frames_store].
Qed.

Lemma frames_set_page self v : frames (D:=D) self (BrowseTheWeb.set_page self v).
Proof.
  apply frames_bind; [apply frames_the_browse | intros; apply frames_store].
Qed.

Lemma frames_context self : frames (D:=D) self (BrowseTheWeb.context self).
Proof.
  apply frames_bind; [apply frames_the_browse|]. intros b.
  destruct (_context b); [apply frames_ret|].
  apply frames_bind; [apply frames_call|]. intros c.
  apply frames_bind; [apply frames_set_context | intros; apply frames_ret].
Qed.

Lemma frames_page self : frames (D:=D) self (BrowseTheWeb.page self).
Proof.
  apply frames_bind; [apply frames_the_browse|]. intros b.
  destruct (_page b); [apply frames_ret|].
  apply frames_bind; [apply frames_context|]. intros c.
  apply frames_bind; [apply frames_call|]. intros p.
  apply frames_bind; [apply frames_set_page | intros; apply frames_ret].
Qed.

Lemma frames_run_op op self : frames (D:=D) self (run_op op self).
Proof.
  destruct op; cbn [run_op].
  - apply frames_bind; [apply frames_context | intros; apply frames_ret].
  - apply frames_bind; [apply frames_page | intros; apply frames_ret].
  - apply frames_bind; [|intros; apply frames_ret].
    apply frames_bind; [apply frames_context | intros; apply frames_call].
  - apply frames_bind; [apply frames_the_browse|]. intros b.
    destruct (_page b); [|apply frames_ret].
    apply frames_bind; [apply frames_call | intros; apply frames_set_page].
  - apply frames_bind; [apply frames_the_browse|]. intros b.
    destruct (_context b); [|apply frames_ret].
    apply frames_bind; [apply frames_call|]. intros _.
    apply frames_bind; [apply frames_set_context | intros; apply frames_set_page].
  - apply frames_bind; [apply frames_the_browse | intros; apply frames_call].
Qed.

Lemma run_ops_frame ops self (w : world D) r :
  r ≠ self -> heap (run_ops ops self w) !! r = heap w !! r.
Proof.
  intros Hr. revert w. induction ops as [|op ops IH]; intros w; [done|].
  cbn [run_ops]. rewrite IH. by apply frames_run_op.
Qed.

(** C10. [as_actor] builds a new instance holding copies of the
    browser, context and page fields of the original. From then on,
    whatever sequence of context and page creations and closings is run
    through the bound copy, the original object (its [_context] and
    [_page] with it) stays as it was; and whatever sequence is run
    through the original, the bound copy stays as it was. *)
Theorem binding_isolates_caches
    (w : world D) (x actor : ref) (bx : BrowseTheWebObj) :
  heap w !! x = Some (OBrowse bx) ->
  exists w1 b,
    BrowseTheWeb.as_actor x actor w = (w1, Ret b) /\
    b ≠ x /\
    heap w1 !! x = Some (OBrowse bx) /\
    heap w1 !! b
      = Some (OBrowse (mkBrowse BrowseTheWeb.cls
                         (_browser bx) (_context bx) (_page bx) (Some actor))) /\
    (forall ops, heap (run_ops ops b w1) !! x = Some (OBrowse bx)) /\
    (forall ops,
        heap (run_ops ops x w1) !! b
          = Some (OBrowse (mkBrowse BrowseTheWeb.cls
                             (_browser bx) (_context bx) (_page bx) (Some actor)))).
Proof.
  intros Hx.
  pose proof (fresh_not_allocated _ _ _ Hx) as Hne.
  eexists _, _. split; [by apply as_actor_run|].
  assert (Hx1 : (<[fresh (dom (heap w)) := bound_copy bx actor]> (heap w)) !! x
                = Some (OBrowse bx)) by by rewrite lookup_insert_ne.
  split_and!; cbn [heap]; try done.
  - apply lookup_insert_eq.
  - intros ops. by rewrite run_ops_frame by done.
  - intros ops. rewrite run_ops_frame by done. apply lookup_insert_eq.
Qed.

End isolation.

Lemma binding_isolates_caches_witness :
  heap Examples.actor_and_ability !! 2%positive
    = Some (OBrowse (mkBrowse BrowseTheWeb.cls 7 (Some 8) (Some 9) None)) /\
  exists w1 b,
    BrowseTheWeb.as_actor 2%positive 1%positive Examples.actor_and_ability
      = (w1, Ret b) /\
    b ≠ 2%positive /\
    heap w1 !! 2%positive
      = Some (OBrowse (mkBrowse BrowseTheWeb.cls 7 (Some 8) (Some 9) None)) /\
    heap w1 !! b
      = Some (OBrowse (mkBrowse BrowseTheWeb.cls 7 (Some 8) (Some 9) (Some 1%positive))) /\
    (forall ops,
        heap (run_ops ops b w1) !! 2%positive
          = Some (OBrowse (mkBrowse BrowseTheWeb.cls 7 (Some 8) (Some 9) None))) /\
    (forall ops,
        heap (run_ops ops 2%positive w1) !! b
          = Some (OBrowse (mkBrowse BrowseTheWeb.cls 7 (Some 8) (Some 9) (Some 1%positive)))).
Proof.
  split; [vm_compute; reflexivity|].
  apply (binding_isolates_caches Examples.actor_and_ability 2%positive 1%positive
           (mkBrowse BrowseTheWeb.cls 7 (Some 8) (Some 9) None)).
  vm_compute; reflexivity.
Defined.

(** Isolation is not vacuous: closing the context through the bound copy
    does clear the copy's own caches. *)
Example close_through_copy_clears_copy_only :
  let w1 := (BrowseTheWeb.as_actor 2%positive 1%positive Examples.actor_and_ability).1 in
  let w2 := run_ops [CloseContext] 3%positive w1 in
  heap w2 !! 3%positive
    = Some (OBrowse (mkBrowse BrowseTheWeb.cls 7 None None (Some 1%positive))) /\
  heap w2 !! 2%positive
    = Some (OBrowse (mkBrowse BrowseTheWeb.cls 7 (Some 8) (Some 9) None)).
Proof. vm_compute. split; reflexivity. Qed.

Section caches.
Context {D : Driver}.

Lemma page_cached (w : world D) self b p :
  heap w !! self = Some (OBrowse b) ->
  _page b = Some p ->
  BrowseTheWeb.page self w = (w, Ret p).
Proof.
  intros H Hp. unfold BrowseTheWeb.page, bind.
  by rewrite (the_browse_at _ _ _ H), Hp.
Qed.

Lemma close_context_run (w : world D) self b c d1 :
  heap w !! self = Some (OBrowse b) ->
  _context b = Some c ->
  context_close D c (drv w) = (d1, Ret tt) ->
  BrowseTheWeb.close_context self w
    = (mkWorld (<[self := OBrowse (mkBrowse (ob_class b) (_browser b) None None (_actor b))]>
                  (heap w)) d1,
       Ret tt).
Proof.
  intros H Hc Hclose. unfold BrowseTheWeb.close_context, bind at 1.
  rewrite (the_browse_at _ _ _ H), Hc.
  unfold bind at 1, call. rewrite Hclose.
  unfold bind at 1, BrowseTheWeb.set_context, bind, the_browse, store.
  cbn [heap drv]. rewrite H.
  unfold BrowseTheWeb.set_page, bind, the_browse, store.
  cbn [heap drv]. rewrite lookup_insert_eq. cbn.
  by rewrite insert_insert_eq.
Qed.

Lemma context_created (w : world D) self b d2 c' :
  heap w !! self = Some (OBrowse b) ->
  _context b = None ->
  new_context D (_browser b) (drv w) = (d2, Ret c') ->
  BrowseTheWeb.context self w
    = (mkWorld (<[self := OBrowse (mkBrowse (ob_class b) (_browser b) (Some c')
                                     (_page b) (_actor b))]> (heap w)) d2,
       Ret c').
Proof.
  intros H Hc Hnew. unfold BrowseTheWeb.context, bind at 1.
  rewrite (the_browse_at _ _ _ H), Hc.
  unfold bind at 1, call. rewrite Hnew.
  unfold bind at 1, BrowseTheWeb.set_context, bind, the_browse, store.
  cbn [heap drv]. by rewrite H.
Qed.

Lemma context_creation_fails (w : world D) self b d2 e :
  heap w !! self = Some (OBrowse b) ->
  _context b = None ->
  new_context D (_browser b) (drv w) = (d2, Raise e) ->
  BrowseTheWeb.context self w = (mkWorld (heap w) d2, Raise e).
Proof.
  intros H Hc Hnew. unfold BrowseTheWeb.context, bind at 1.
  rewrite (the_browse_at _ _ _ H), Hc.
  unfold bind at 1, call. by rewrite Hnew.
Qed.

(** C5. For every [BrowseTheWeb] instance with a cached context and a
    cached page, once [close_context()] has returned both [_context]
    and [_page] are [None]; the next read of the [page] property then
    asks the browser for a new context and that context for a new page,
    caches both and returns the page the driver has just created. If
    either creation raises, the read raises: in no case is the page
    cached before the close handed out. *)
Theorem close_context_invalidates_page
    (w : world D) (self : ref) (b : BrowseTheWebObj) (c p : handle)
    (d1 : dstate D) :
  heap w !! self = Some (OBrowse b) ->
  _context b = Some c ->
  _page b = Some p ->
  context_close D c (drv w) = (d1, Ret tt) ->
  exists w1,
    BrowseTheWeb.close_context self w = (w1, Ret tt) /\
    heap w1 !! self
      = Some (OBrowse (mkBrowse (ob_class b) (_browser b) None None (_actor b))) /\
    drv w1 = d1 /\
    (forall d2 c' d3 p',
        new_context D (_browser b) d1 = (d2, Ret c') ->
        Playwright.new_page D c' d2 = (d3, Ret p') ->
        exists w2,
          BrowseTheWeb.page self w1 = (w2, Ret p') /\
          heap w2 !! self
            = Some (OBrowse (mkBrowse (ob_class b) (_browser b)
                               (Some c') (Some p') (_actor b))) /\
          drv w2 = d3) /\
    (forall d2 e,
        new_context D (_browser b) d1 = (d2, Raise e) ->
        (BrowseTheWeb.page self w1).2 = Raise e) /\
    (forall d2 c' d3 e,
        new_context D (_browser b) d1 = (d2, Ret c') ->
        Playwright.new_page D c' d2 = (d3, Raise e) ->
        (BrowseTheWeb.page self w1).2 = Raise e).
Proof.
  intros H Hc Hp Hclose.
  eexists. split; [by eapply close_context_run|].
  match goal with |- context [mkWorld ?h _] => set (h1 := h) end.
  set (b1 := mkBrowse (ob_class b) (_browser b) None None (_actor b)).
  assert (h1 !! self = Some (OBrowse b1)) as H1 by apply lookup_insert_eq.
  split; [exact H1|]. split; [done|].
  split_and!.
  - intros d2 c' d3 p' Hctx Hpage. eexists.
    unfold BrowseTheWeb.page, bind at 1.
    rewrite (the_browse_at (mkWorld h1 d1) _ _ H1). cbn [_page b1].
    unfold bind at 1.
    rewrite (context_created (mkWorld h1 d1) self b1 d2 c') by done.
    unfold bind at 1, call. cbn [heap drv]. rewrite Hpage.
    unfold bind at 1, BrowseTheWeb.set_page, bind, the_browse, store, ret.
    cbn [heap drv]. rewrite lookup_insert_eq. cbn.
    split; [reflexivity|]. split; [|done].
    apply lookup_insert_eq.
  - intros d2 e Hctx.
    unfold BrowseTheWeb.page, bind at 1.
    rewrite (the_browse_at (mkWorld h1 d1) _ _ H1). cbn [_page b1].
    unfold bind at 1.
    by rewrite (context_creation_fails (mkWorld h1 d1) self b1 d2 e).
  - intros d2 c' d3 e Hctx Hpage.
    unfold BrowseTheWeb.page, bind at 1.
    rewrite (the_browse_at (mkWorld h1 d1) _ _ H1). cbn [_page b1].
    unfold bind at 1.
    rewrite (context_created (mkWorld h1 d1) self b1 d2 c') by done.
    unfold bind at 1, call. cbn [heap drv]. by rewrite Hpage.
Qed.

End caches.

Lemma close_context_invalidates_page_witness :
  heap Examples.lone_ability !! 1%positive
    = Some (OBrowse (mkBrowse BrowseTheWeb.cls 7 (Some 8) (Some 9) None)) /\
  context_close Mock.quiet 8 (drv Examples.lone_ability)
    = (Mock.mkState [Mock.CContextClose 8] 10, Ret tt) /\
  exists w1,
    BrowseTheWeb.close_context 1%positive Examples.lone_ability = (w1, Ret tt) /\
    heap w1 !! 1%positive
      = Some (OBrowse (mkBrowse BrowseTheWeb.cls 7 None None None)) /\
    exists w2,
      BrowseTheWeb.page 1%positive w1 = (w2, Ret 11) /\
      heap w2 !! 1%positive
        = Some (OBrowse (mkBrowse BrowseTheWeb.cls 7 (Some 10) (Some 11) None)) /\
      Mock.calls (drv w2)
        = [Mock.CContextClose 8; Mock.CNewContext 7; Mock.CNewPage 10].
Proof.
  split; [vm_compute; reflexivity|]. split; [vm_compute; reflexivity|].
  destruct (close_context_invalidates_page Examples.lone_ability 1%positive
              (mkBrowse BrowseTheWeb.cls 7 (Some 8) (Some 9) None) 8 9
              (Mock.mkState [Mock.CContextClose 8] 10))
    as (w1 & Hclose & Hcleared & Hd & Hnext & _);
    [vm_compute; reflexivity .. |].
  exists w1. split; [exact Hclose|]. split; [exact Hcleared|].
  destruct (Hnext (Mock.mkState [Mock.CContextClose 8; Mock.CNewContext 7] 11) 10
              (Mock.mkState [Mock.CContextClose 8; Mock.CNewContext 7; Mock.CNewPage 10] 12)
              11)
    as (w2 & Hpage & Hcached & Hd2); [vm_compute; reflexivity ..|].
  exists w2. split; [exact Hpage|]. split; [exact Hcached|].
  rewrite Hd2. reflexivity.
Defined.

Section questions.
Context {D : Driver}.

(** C3, as amended. For every actor that holds the [BrowseTheWeb]
    ability and whose page is at hand (cached, or created without
    error) and for every locator, answering [Visibility] or [Presence]
    returns a boolean and does not raise: when the driver's
    [is_visible] (or [query_selector]) raises, the answer is [False];
    otherwise it is what the driver reported. *)
Theorem visibility_presence_report_false_on_driver_error
    (w w1 : world D) (actor r : ref) (a : ActorObj) (p : handle)
    (locator : string) :
  heap w !! actor = Some (OActor a) ->
  _abilities a !! BrowseTheWeb.cls = Some r ->
  BrowseTheWeb.page r w = (w1, Ret p) ->
  Visibility.answered_by locator actor w
    = (mkWorld (heap w1) (is_visible D p locator (drv w1)).1,
       Ret (VBool match (is_visible D p locator (drv w1)).2 with
                  | Ret v => v
                  | Raise _ => false
                  end)) /\
  Presence.answered_by locator actor w
    = (mkWorld (heap w1) (query_selector D p locator (drv w1)).1,
       Ret (VBool match (query_selector D p locator (drv w1)).2 with
                  | Ret (Some _) => true
                  | Ret None => false
                  | Raise _ => false
                  end)).
Proof.
  intros HA Hr Hpage. split.
  - unfold Visibility.answered_by, bind at 1.
    rewrite (ability_to_found _ _ _ _ _ HA Hr).
    unfold bind at 1. rewrite Hpage.
    unfold try_except, bind, call, ret.
    by destruct (is_visible D p locator (drv w1)) as [d [v|e]].
  - unfold Presence.answered_by, bind at 1.
    rewrite (ability_to_found _ _ _ _ _ HA Hr).
    unfold bind at 1. rewrite Hpage.
    unfold try_except, bind, call, ret.
    by destruct (query_selector D p locator (drv w1)) as [d [[h|]|e]].
Qed.

Lemma py_or_optional_str (content : option string) :
  py_or (of_optional_str content) (VStr "") = VStr (default "" content).
Proof.
  destruct content as [s|]; [|done].
  unfold py_or. cbn. by destruct s.
Qed.

Lemma text_answer_is_str (w w' : world D) actor locator v :
  Text.answered_by locator actor w = (w', Ret v) -> exists s, v = VStr s.
Proof.
  unfold Text.answered_by, bind, call, ret. intros H.
  repeat case_match; simplify_eq.
  rewrite py_or_optional_str. eauto.
Qed.

(** C6. For every actor holding the [BrowseTheWeb] ability (its page at
    hand) and every locator, answering [Text] first waits for the
    element to be visible (if the wait raises, that is the outcome and
    the content is not read) and then returns the element's text
    content, or the empty string when the driver reports no content;
    whenever the question returns, the answer is a string, never
    [None]. *)
Theorem text_waits_then_returns_content_or_empty
    (w w1 : world D) (actor r : ref) (a : ActorObj) (p : handle)
    (locator : string) :
  heap w !! actor = Some (OActor a) ->
  _abilities a !! BrowseTheWeb.cls = Some r ->
  BrowseTheWeb.page r w = (w1, Ret p) ->
  (forall d2 e,
      wait_for_selector D p locator "visible" (drv w1) = (d2, Raise e) ->
      Text.answered_by locator actor w = (mkWorld (heap w1) d2, Raise e)) /\
  (forall d2 d3 content,
      wait_for_selector D p locator "visible" (drv w1) = (d2, Ret tt) ->
      text_content D p locator d2 = (d3, Ret content) ->
      Text.answered_by locator actor w
        = (mkWorld (heap w1) d3,
           Ret (VStr match content with Some s => s | None => "" end))) /\
  (forall w' v,
      Text.answered_by locator actor w = (w', Ret v) ->
      v ≠ VNone /\ exists s, v = VStr s).
Proof.
  intros HA Hr Hpage. split_and!.
  - intros d2 e Hwait.
    unfold Text.answered_by, bind at 1.
    rewrite (ability_to_found _ _ _ _ _ HA Hr).
    unfold bind at 1. rewrite Hpage.
    unfold bind at 1, call. by rewrite Hwait.
  - intros d2 d3 content Hwait Hcontent.
    unfold Text.answered_by, bind at 1.
    rewrite (ability_to_found _ _ _ _ _ HA Hr).
    unfold bind at 1. rewrite Hpage.
    unfold bind at 1, call. rewrite Hwait.
    unfold bind, ret. cbn [heap drv]. rewrite Hcontent.
    by rewrite py_or_optional_str.
  - intros w' v Hv.
    destruct (text_answer_is_str _ _ _ _ _ Hv) as [s ->].
    split; [done | eauto].
Qed.

End questions.

Lemma visibility_presence_report_false_on_driver_error_witness :
  heap Examples.granted_probes_fail !! 1%positive
    = Some (OActor (mkActor "TestUser" {[BrowseTheWeb.cls := 3%positive]})) /\
  BrowseTheWeb.page 3%positive Examples.granted_probes_fail
    = (Examples.granted_probes_fail, Ret 9) /\
  (Visibility.answered_by "#error" 1%positive Examples.granted_probes_fail).2
    = Ret (VBool false) /\
  (Presence.answered_by "#error" 1%positive Examples.granted_probes_fail).2
    = Ret (VBool false).
Proof.
  split; [vm_compute; reflexivity|]. split; [vm_compute; reflexivity|].
  destruct (visibility_presence_report_false_on_driver_error
              Examples.granted_probes_fail Examples.granted_probes_fail
              1%positive 3%positive
              (mkActor "TestUser" {[BrowseTheWeb.cls := 3%positive]}) 9 "#error")
    as [Hv Hp]; [vm_compute; reflexivity ..|].
  rewrite Hv, Hp. split; vm_compute; reflexivity.
Defined.

(** C3 for every actor does not hold: for [Actor("TestUser")] granted
    nothing, both questions raise the [ValueError] of [ability_to], which
    is called outside the [try]. *)
Lemma visibility_presence_raise_without_ability :
  (Visibility.answered_by "#error" 1%positive Examples.lone_actor).2
    = Raise (mkExc "ValueError" "Actor TestUser does not have the ability BrowseTheWeb") /\
  (Presence.answered_by "#error" 1%positive Examples.lone_actor).2
    = Raise (mkExc "ValueError" "Actor TestUser does not have the ability BrowseTheWeb").
Proof. split; vm_compute; reflexivity. Qed.

Lemma text_waits_then_returns_content_or_empty_witness :
  heap Examples.granted_no_text !! 1%positive
    = Some (OActor (mkActor "TestUser" {[BrowseTheWeb.cls := 3%positive]})) /\
  BrowseTheWeb.page 3%positive Examples.granted_no_text
    = (Examples.granted_no_text, Ret 9) /\
  text_content Examples.no_text 9 "#flash"
    (Mock.mkState [Mock.CWaitForSelector 9 "#flash" "visible"] 10)
    = (Mock.mkState [Mock.CWaitForSelector 9 "#flash" "visible";
                     Mock.CTextContent 9 "#flash"] 10,
       Ret None) /\
  Text.answered_by "#flash" 1%positive Examples.granted_no_text
    = (@mkWorld Examples.no_text (heap Examples.granted_no_text)
         (Mock.mkState [Mock.CWaitForSelector 9 "#flash" "visible";
                        Mock.CTextContent 9 "#flash"] 10),
       Ret (VStr "")).
Proof.
  split; [vm_compute; reflexivity|]. split; [vm_compute; reflexivity|].
  split; [vm_compute; reflexivity|].
  destruct (text_waits_then_returns_content_or_empty
              Examples.granted_no_text Examples.granted_no_text
              1%positive 3%positive
              (mkActor "TestUser" {[BrowseTheWeb.cls := 3%positive]}) 9 "#flash")
    as (_ & Hcontent & _); [vm_compute; reflexivity ..|].
  apply (Hcontent (Mock.mkState [Mock.CWaitForSelector 9 "#flash" "visible"] 10)
           _ None); vm_compute; reflexivity.
Defined.

Section typing.
Context {D : Driver}.

Lemma passed_options_clear (self : Type_.t) :
  Type_.passed_options self !! "clear" = None.
Proof.
  unfold Type_.passed_options. apply map_lookup_filter_None.
  right. intros v _ Hne. by apply Hne.
Qed.

Lemma passed_options_other (self : Type_.t) (k : string) :
  k ≠ "clear" ->
  Type_.passed_options self !! k = Type_.options self !! k.
Proof.
  intros Hk. unfold Type_.passed_options.
  destruct (Type_.options self !! k) as [v|] eqn:Hv.
  - by apply map_lookup_filter_Some.
  - apply map_lookup_filter_None. by left.
Qed.

(** C7. For every [Type] interaction (performed by an actor holding the
    [BrowseTheWeb] ability, its page at hand), [perform_as] first waits
    for the locator to be visible, and does nothing more if the wait
    raises. Then, when the ['clear'] option is truthy or absent, it
    fills the element with the empty string and after that types the
    text; when ['clear'] is falsy it types the text at once. The typing
    call receives the options without ['clear'], every other option
    unchanged. *)
Theorem type_waits_clears_then_types
    (w w1 : world D) (actor r : ref) (a : ActorObj) (p : handle)
    (self : Type_.t) :
  heap w !! actor = Some (OActor a) ->
  _abilities a !! BrowseTheWeb.cls = Some r ->
  BrowseTheWeb.page r w = (w1, Ret p) ->
  (forall d2 e,
      wait_for_selector D p (Type_.locator self) "visible" (drv w1) = (d2, Raise e) ->
      Type_.perform_as self actor w = (mkWorld (heap w1) d2, Raise e)) /\
  (forall d2 d3 d4,
      wait_for_selector D p (Type_.locator self) "visible" (drv w1) = (d2, Ret tt) ->
      Type_.clear_first self = true ->
      fill D p (Type_.locator self) "" d2 = (d3, Ret tt) ->
      type D p (Type_.locator self) (Type_.text self) (Type_.passed_options self) d3
        = (d4, Ret tt) ->
      Type_.perform_as self actor w = (mkWorld (heap w1) d4, Ret VNone)) /\
  (forall d2 d4,
      wait_for_selector D p (Type_.locator self) "visible" (drv w1) = (d2, Ret tt) ->
      Type_.clear_first self = false ->
      type D p (Type_.locator self) (Type_.text self) (Type_.passed_options self) d2
        = (d4, Ret tt) ->
      Type_.perform_as self actor w = (mkWorld (heap w1) d4, Ret VNone)) /\
  (Type_.options self !! "clear" = None -> Type_.clear_first self = true) /\
  (forall v, Type_.options self !! "clear" = Some v ->
             Type_.clear_first self = truthy v) /\
  Type_.passed_options self !! "clear" = None /\
  (forall k, k ≠ "clear" ->
             Type_.passed_options self !! k = Type_.options self !! k).
Proof.
  intros HA Hr Hpage.
  assert (Hstart : forall k : handle -> M D PyVal,
             (browse_ability <- Actor.ability_to actor BrowseTheWeb.cls;;
              page <- BrowseTheWeb.page browse_ability;; k page) w
             = k p w1).
  { intros k. unfold bind at 1.
    rewrite (ability_to_found _ _ _ _ _ HA Hr).
    unfold bind at 1. by rewrite Hpage. }
  split_and!.
  - intros d2 e Hwait. unfold Type_.perform_as. rewrite Hstart.
    unfold bind at 1, call. by rewrite Hwait.
  - intros d2 d3 d4 Hwait Hclear Hfill Htype.
    unfold Type_.perform_as. rewrite Hstart.
    unfold bind at 1, call at 1. rewrite Hwait, Hclear.
    unfold bind at 1, call at 1. cbn [heap drv]. rewrite Hfill.
    unfold bind, call, ret. cbn [heap drv]. by rewrite Htype.
  - intros d2 d4 Hwait Hclear Htype.
    unfold Type_.perform_as. rewrite Hstart.
    unfold bind at 1, call at 1. rewrite Hwait, Hclear.
    unfold bind, call, ret. cbn [heap drv]. by rewrite Htype.
  - intros H. unfold Type_.clear_first. by rewrite H.
  - intros v H. unfold Type_.clear_first. by rewrite H.
  - apply passed_options_clear.
  - apply passed_options_other.
Qed.

End typing.

Lemma type_waits_clears_then_types_witness :
  heap Examples.granted_quiet !! 1%positive
    = Some (OActor (mkActor "TestUser" {[BrowseTheWeb.cls := 3%positive]})) /\
  BrowseTheWeb.page 3%positive Examples.granted_quiet
    = (Examples.granted_quiet, Ret 9) /\
  Type_.clear_first Examples.typing_without_clear = false /\
  Type_.passed_options Examples.typing_without_clear = {["delay" := VInt 5]} /\
  Type_.perform_as Examples.typing_without_clear 1%positive Examples.granted_quiet
    = (@mkWorld Mock.quiet (heap Examples.granted_quiet)
         (Mock.mkState
            [Mock.CWaitForSelector 9 "#username" "visible";
             Mock.CType 9 "#username" "student" {["delay" := VInt 5]}] 10),
       Ret VNone).
Proof.
  split; [vm_compute; reflexivity|]. split; [vm_compute; reflexivity|].
  split; [vm_compute; reflexivity|]. split; [vm_compute; reflexivity|].
  destruct (type_waits_clears_then_types
              Examples.granted_quiet Examples.granted_quiet
              1%positive 3%positive
              (mkActor "TestUser" {[BrowseTheWeb.cls := 3%positive]}) 9
              Examples.typing_without_clear)
    as (_ & _ & Hplain & _); [vm_compute; reflexivity ..|].
  apply (Hplain (Mock.mkState [Mock.CWaitForSelector 9 "#username" "visible"] 10));
    vm_compute; reflexivity.
Defined.

(** ** Granting: further properties of [Actor] *)

Section granting_more.
Context {D : Driver}.

Lemma who_can_loop_app (self : ref) (xs ys : list ref) (w : world D) :
  Actor.who_can_loop self (xs ++ ys) w =
    match Actor.who_can_loop self xs w with
    | (w1, Ret _) => Actor.who_can_loop self ys w1
    | (w1, Raise e) => (w1, Raise e)
    end.
Proof.
  revert w. induction xs as [|x xs IH]; intros w; [done|].
  cbn [app Actor.who_can_loop]. unfold bind.
  destruct (BrowseTheWeb.as_actor x self w) as [w1 [r|e]]; [|done].
  destruct (Actor.type_of x w1) as [w2 [k|e]]; [|done].
  destruct (Actor.set_ability self k r w2) as [w3 [[]|e]]; [|done].
  apply IH.
Qed.

(** X1. [who_can] with several abilities is [who_can] with the first
    ones followed by [who_can] with the rest: the abilities are granted
    left to right, and when granting one raises, those before it stay
    granted and those after it are not looked at. *)
Theorem who_can_app (self : ref) (xs ys : list ref) (w : world D) :
  Actor.who_can self (xs ++ ys) w =
    match Actor.who_can self xs w with
    | (w1, Ret _) => Actor.who_can self ys w1
    | (w1, Raise e) => (w1, Raise e)
    end.
Proof.
  unfold Actor.who_can, bind. rewrite who_can_loop_app.
  by destruct (Actor.who_can_loop self xs w) as [w1 [[]|e]].
Qed.

(** X2. Granting an ability of one class leaves the lookup of every
    other class as it was: [has_ability_to] and [ability_to] for a class
    other than [type(X)] give after [who_can(X)] what they gave before. *)
Theorem who_can_keeps_other_kinds
    (w : world D) (A x : ref) (a : ActorObj) (bx : BrowseTheWebObj) (K : pyclass) :
  heap w !! A = Some (OActor a) ->
  heap w !! x = Some (OBrowse bx) ->
  K ≠ ob_class bx ->
  exists w',
    Actor.who_can A [x] w = (w', Ret A) /\
    (Actor.has_ability_to A K w').2 = (Actor.has_ability_to A K w).2 /\
    (Actor.ability_to A K w').2 = (Actor.ability_to A K w).2.
Proof.
  intros HA Hx HK. eexists. split; [by apply who_can_one_run|].
  match goal with |- context [mkWorld (<[A := OActor ?a1]> ?h) ?d] =>
    set (a' := a1); set (w' := mkWorld (<[A := OActor a1]> h) d) end.
  assert (heap w' !! A = Some (OActor a')) as HA' by apply lookup_insert_eq.
  assert (_abilities a' !! K = _abilities a !! K) as Hsame.
  { unfold a'. cbn. by rewrite lookup_insert_ne. }
  split.
  - rewrite (has_ability_to_at w' _ a'), (has_ability_to_at w _ a) by done.
    by rewrite Hsame.
  - destruct (_abilities a !! K) as [r|] eqn:Hr.
    + rewrite (ability_to_found w' _ a' _ r), (ability_to_found w _ a _ r);
        first [done | by rewrite Hsame].
    + rewrite (ability_to_missing w' _ a'), (ability_to_missing w _ a);
        first [done | by rewrite Hsame].
Qed.

(** X3. One ability instance granted to two actors gives each actor a
    bound copy of its own: the two copies are different objects, each
    names its own actor, and no sequence of context and page operations
    through one of them changes the other. *)
Theorem one_ability_two_actors
    (w : world D) (A B x : ref) (a b : ActorObj) (bx : BrowseTheWebObj) :
  heap w !! A = Some (OActor a) ->
  heap w !! B = Some (OActor b) ->
  A ≠ B ->
  heap w !! x = Some (OBrowse bx) ->
  exists w1 w2 rA rB,
    Actor.who_can A [x] w = (w1, Ret A) /\
    Actor.who_can B [x] w1 = (w2, Ret B) /\
    Actor.ability_to A (ob_class bx) w2 = (w2, Ret rA) /\
    Actor.ability_to B (ob_class bx) w2 = (w2, Ret rB) /\
    rA ≠ rB /\
    heap w2 !! rA = Some (bound_copy bx A) /\
    heap w2 !! rB = Some (bound_copy bx B) /\
    (forall ops, heap (run_ops ops rB w2) !! rA = Some (bound_copy bx A)) /\
    (forall ops, heap (run_ops ops rA w2) !! rB = Some (bound_copy bx B)).
Proof.
  intros HA HB HAB Hx.
  pose proof (fresh_not_allocated _ _ _ HA) as Hne1.
  pose proof (fresh_not_allocated _ _ _ HB) as Hne2.
  pose proof (fresh_not_allocated _ _ _ Hx) as Hne3.
  assert (A ≠ x) as Hne4 by (intros ->; congruence).
  assert (B ≠ x) as Hne5 by (intros ->; congruence).
  set (rA := fresh (dom (heap w))) in *.
  set (a1 := mkActor (name a) (<[ob_class bx := rA]> (_abilities a))).
  set (w1 := mkWorld (<[A := OActor a1]> (<[rA := bound_copy bx A]> (heap w))) (drv w)).
  assert (heap w1 !! A = Some (OActor a1)) as HA1 by apply lookup_insert_eq.
  assert (heap w1 !! B = Some (OActor b)) as HB1.
  { unfold w1. cbn [heap]. by rewrite !lookup_insert_ne. }
  assert (heap w1 !! x = Some (OBrowse bx)) as Hx1.
  { unfold w1. cbn [heap]. by rewrite !lookup_insert_ne. }
  assert (heap w1 !! rA = Some (bound_copy bx A)) as HrA.
  { unfold w1. cbn [heap]. by rewrite lookup_insert_ne, lookup_insert_eq. }
  pose proof (fresh_not_allocated _ _ _ HA1) as Hne6.
  pose proof (fresh_not_allocated _ _ _ HrA) as Hne7.
  pose proof (fresh_not_allocated _ _ _ HB1) as Hne8.
  set (rB := fresh (dom (heap w1))) in *.
  set (b1 := mkActor (name b) (<[ob_class bx := rB]> (_abilities b))).
  set (w2 := mkWorld (<[B := OActor b1]> (<[rB := bound_copy bx B]> (heap w1))) (drv w1)).
  assert (heap w2 !! rA = Some (bound_copy bx A)) as HrA2.
  { unfold w2. cbn [heap]. by rewrite !lookup_insert_ne. }
  assert (heap w2 !! rB = Some (bound_copy bx B)) as HrB2.
  { unfold w2. cbn [heap]. by rewrite lookup_insert_ne, lookup_insert_eq. }
  exists w1, w2, rA, rB.
  split; [by apply who_can_one_run|].
  split; [by apply who_can_one_run|].
  split_and!; try done.
  - eapply (ability_to_found w2 A a1).
    + unfold w2. cbn [heap]. by rewrite !lookup_insert_ne.
    + apply lookup_insert_eq.
  - eapply (ability_to_found w2 B b1).
    + apply lookup_insert_eq.
    + apply lookup_insert_eq.
  - intros ops. by rewrite run_ops_frame.
  - intros ops. by rewrite run_ops_frame.
Qed.

(** X4. [has_ability_to] tells what [ability_to] will do, and neither
    changes anything: for an actor, either the class is a key of
    [_abilities], [has_ability_to] is true and [ability_to] returns the
    stored ability, or it is not, [has_ability_to] is false and
    [ability_to] raises [ValueError]. *)
Theorem has_ability_to_guards_ability_to
    (w : world D) (self : ref) (a : ActorObj) (K : pyclass) :
  heap w !! self = Some (OActor a) ->
  (Actor.has_ability_to self K w = (w, Ret true) /\
   exists r, _abilities a !! K = Some r /\
             Actor.ability_to self K w = (w, Ret r)) \/
  (Actor.has_ability_to self K w = (w, Ret false) /\
   _abilities a !! K = None /\
   exists e, Actor.ability_to self K w = (w, Raise e) /\
             exc_type e = "ValueError").
Proof.
  intros H. rewrite (has_ability_to_at _ _ _ _ H).
  destruct (_abilities a !! K) as [r|] eqn:HK.
  - left. split; [by rewrite bool_decide_eq_true_2 by eauto|].
    exists r. split; [done | by eapply ability_to_found].
  - right. split; [by rewrite bool_decide_eq_false_2 by (intros [? ?]; done)|].
    split; [done|]. eexists. split; [by eapply ability_to_missing | done].
Qed.

End granting_more.

(** ** The lazy accessors and the closing methods of [BrowseTheWeb] *)

Section caches_more.
Context {D : Driver}.

Lemma context_returns_cached (w w1 : world D) self c :
  BrowseTheWeb.context self w = (w1, Ret c) ->
  exists b1, heap w1 !! self = Some (OBrowse b1) /\ _context b1 = Some c.
Proof.
  unfold BrowseTheWeb.context, bind, the_browse, call,
    BrowseTheWeb.set_context, bind, the_browse, store, ret.
  intros H. repeat case_match; simplify_eq; cbn [heap drv] in *;
    first [by eauto | eexists; split; [apply lookup_insert_eq | done]].
Qed.

Lemma context_cached (w : world D) self b c :
  heap w !! self = Some (OBrowse b) ->
  _context b = Some c ->
  BrowseTheWeb.context self w = (w, Ret c).
Proof.
  intros H Hc. unfold BrowseTheWeb.context, bind.
  by rewrite (the_browse_at _ _ _ H), Hc.
Qed.

Lemma page_returns_cached (w w1 : world D) self p :
  BrowseTheWeb.page self w = (w1, Ret p) ->
  exists b1, heap w1 !! self = Some (OBrowse b1) /\ _page b1 = Some p.
Proof.
  unfold BrowseTheWeb.page, bind at 1, the_browse at 1.
  destruct (heap w !! self) as [[a|b]|] eqn:Hself; try done.
  destruct (_page b) as [p0|] eqn:Hp0.
  - intros [= <- <-]. eauto.
  - unfold bind at 1.
    destruct (BrowseTheWeb.context self w) as [wc [c|e]] eqn:Hc; [|done].
    unfold bind at 1, call.
    destruct (Playwright.new_page D c (drv wc)) as [d [p1|e]]; [|done].
    unfold bind, BrowseTheWeb.set_page, bind, the_browse, store, ret.
    cbn [heap drv].
    intros H. repeat case_match; simplify_eq; cbn [heap].
    eexists. split; [apply lookup_insert_eq | done].
Qed.

(** X5. The [context] property is idempotent: once a read has returned a
    context, every later read returns that same context and changes
    nothing (the browser is not asked for another one). *)
Theorem context_idempotent (w w1 : world D) (self : ref) (c : handle) :
  BrowseTheWeb.context self w = (w1, Ret c) ->
  BrowseTheWeb.context self w1 = (w1, Ret c).
Proof.
  intros H. destruct (context_returns_cached _ _ _ _ H) as (b1 & Hb1 & Hc).
  by eapply context_cached.
Qed.

(** X6. The [page] property is idempotent: once a read has returned a
    page, every later read returns that same page and changes nothing
    (no context and no page is created again). *)
Theorem page_idempotent (w w1 : world D) (self : ref) (p : handle) :
  BrowseTheWeb.page self w = (w1, Ret p) ->
  BrowseTheWeb.page self w1 = (w1, Ret p).
Proof.
  intros H. destruct (page_returns_cached _ _ _ _ H) as (b1 & Hb1 & Hp).
  by eapply page_cached.
Qed.

(** X7. When the first [page] read creates the context but the creation
    of the page raises, the read raises that exception and the new
    context stays cached with no page; the next [page] read asks that same
    context for a page and does not create a second context. *)
Theorem page_retry_reuses_context
    (w : world D) (self : ref) (b : BrowseTheWebObj) (c : handle)
    (d1 d2 : dstate D) (e : PyExc) :
  heap w !! self = Some (OBrowse b) ->
  _context b = None ->
  _page b = None ->
  new_context D (_browser b) (drv w) = (d1, Ret c) ->
  Playwright.new_page D c d1 = (d2, Raise e) ->
  exists w1,
    BrowseTheWeb.page self w = (w1, Raise e) /\
    heap w1 !! self
      = Some (OBrowse (mkBrowse (ob_class b) (_browser b) (Some c) None (_actor b))) /\
    drv w1 = d2 /\
    forall d3 p,
      Playwright.new_page D c d2 = (d3, Ret p) ->
      exists w2,
        BrowseTheWeb.page self w1 = (w2, Ret p) /\
        heap w2 !! self
          = Some (OBrowse (mkBrowse (ob_class b) (_browser b) (Some c) (Some p) (_actor b))) /\
        drv w2 = d3.
Proof.
  intros H Hc Hp Hctx Hpage.
  set (b1 := mkBrowse (ob_class b) (_browser b) (Some c) None (_actor b)).
  set (h1 := <[self := OBrowse b1]> (heap w)).
  assert (h1 !! self = Some (OBrowse b1)) as H1 by apply lookup_insert_eq.
  exists (mkWorld h1 d2). split_and!; try done.
  - unfold BrowseTheWeb.page, bind at 1.
    rewrite (the_browse_at _ _ _ H), Hp.
    unfold bind at 1. rewrite (context_created w self b d1 c) by done.
    unfold bind at 1, call. cbn [heap drv]. rewrite Hpage.
    destruct b; cbn in *; by subst.
  - intros d3 p Hnew. eexists.
    unfold BrowseTheWeb.page, bind at 1.
    rewrite (the_browse_at (mkWorld h1 d2) _ _ H1). cbn [_page b1].
    unfold bind at 1.
    rewrite (context_cached (mkWorld h1 d2) self b1 c) by done.
    unfold bind at 1, call. cbn [heap drv]. rewrite Hnew.
    unfold bind, BrowseTheWeb.set_page, bind, the_browse, store, ret.
    cbn [heap drv]. rewrite H1. cbn.
    split; [reflexivity|]. split; [|done].
    unfold h1. rewrite insert_insert_eq. apply lookup_insert_eq.
Qed.

Lemma close_page_run (w : world D) self b p d1 :
  heap w !! self = Some (OBrowse b) ->
  _page b = Some p ->
  page_close D p (drv w) = (d1, Ret tt) ->
  BrowseTheWeb.close_page self w
    = (mkWorld (<[self := OBrowse (mkBrowse (ob_class b) (_browser b) (_context b)
                                     None (_actor b))]> (heap w)) d1,
       Ret tt).
Proof.
  intros H Hp Hclose. unfold BrowseTheWeb.close_page, bind at 1.
  rewrite (the_browse_at _ _ _ H), Hp.
  unfold bind at 1, call. rewrite Hclose.
  unfold BrowseTheWeb.set_page, bind, the_browse, store.
  cbn [heap drv]. by rewrite H.
Qed.

(** X8. [close_page()] clears the cached page and keeps the cached
    context: once it has returned, [_page] is [None] and [_context] is
    what it was, and the next [page] read asks that same context for a
    new page (no new context is created). *)
Theorem close_page_keeps_context
    (w : world D) (self : ref) (b : BrowseTheWebObj) (c p : handle)
    (d1 : dstate D) :
  heap w !! self = Some (OBrowse b) ->
  _context b = Some c ->
  _page b = Some p ->
  page_close D p (drv w) = (d1, Ret tt) ->
  exists w1,
    BrowseTheWeb.close_page self w = (w1, Ret tt) /\
    heap w1 !! self
      = Some (OBrowse (mkBrowse (ob_class b) (_browser b) (Some c) None (_actor b))) /\
    drv w1 = d1 /\
    forall d2 p',
      Playwright.new_page D c d1 = (d2, Ret p') ->
      exists w2,
        BrowseTheWeb.page self w1 = (w2, Ret p') /\
        heap w2 !! self
          = Some (OBrowse (mkBrowse (ob_class b) (_browser b) (Some c) (Some p') (_actor b))) /\
        drv w2 = d2.
Proof.
  intros H Hc Hp Hclose.
  set (b1 := mkBrowse (ob_class b) (_browser b) (Some c) None (_actor b)).
  set (h1 := <[self := OBrowse b1]> (heap w)).
  assert (h1 !! self = Some (OBrowse b1)) as H1 by apply lookup_insert_eq.
  exists (mkWorld h1 d1). split_and!; try done.
  - rewrite (close_page_run w self b p d1) by done.
    unfold h1, b1. by rewrite Hc.
  - intros d2 p' Hnew. eexists.
    unfold BrowseTheWeb.page, bind at 1.
    rewrite (the_browse_at (mkWorld h1 d1) _ _ H1). cbn [_page b1].
    unfold bind at 1.
    rewrite (context_cached (mkWorld h1 d1) self b1 c) by done.
    unfold bind at 1, call. cbn [heap drv]. rewrite Hnew.
    unfold bind, BrowseTheWeb.set_page, bind, the_browse, store, ret.
    cbn [heap drv]. rewrite H1. cbn.
    split; [reflexivity|]. split; [|done].
    unfold h1. rewrite insert_insert_eq. apply lookup_insert_eq.
Qed.

(** X9. Closing what is not cached does nothing: [close_page()] on an
    instance with no cached page, and [close_context()] on an instance
    with no cached context (a cached page or not), return without calling
    the driver and without changing the instance. *)
Theorem close_without_cache_is_noop
    (w : world D) (self : ref) (b : BrowseTheWebObj) :
  heap w !! self = Some (OBrowse b) ->
  (_page b = None -> BrowseTheWeb.close_page self w = (w, Ret tt)) /\
  (_context b = None ->
   BrowseTheWeb.close_context self w = (w, Ret tt) /\
   forall p, _page b = Some p -> BrowseTheWeb.page self w = (w, Ret p)).
Proof.
  intros H. split.
  - intros Hp. unfold BrowseTheWeb.close_page, bind.
    by rewrite (the_browse_at _ _ _ H), Hp.
  - intros Hc. split.
    + unfold BrowseTheWeb.close_context, bind.
      by rewrite (the_browse_at _ _ _ H), Hc.
    + intros p Hp. by eapply page_cached.
Qed.

(** X10. When the driver's [close()] raises, the closing method raises
    that exception before it clears anything: after a failed
    [close_context()] the context and the page are still cached, and the
    next [page] read returns the page of the context whose closing
    failed; likewise [close_page()] keeps the page. *)
Theorem failed_close_keeps_caches
    (w : world D) (self : ref) (b : BrowseTheWebObj) :
  heap w !! self = Some (OBrowse b) ->
  (forall c d1 e,
      _context b = Some c ->
      context_close D c (drv w) = (d1, Raise e) ->
      BrowseTheWeb.close_context self w = (mkWorld (heap w) d1, Raise e) /\
      forall p, _page b = Some p ->
                BrowseTheWeb.page self (mkWorld (heap w) d1)
                  = (mkWorld (heap w) d1, Ret p)) /\
  (forall p d1 e,
      _page b = Some p ->
      page_close D p (drv w) = (d1, Raise e) ->
      BrowseTheWeb.close_page self w = (mkWorld (heap w) d1, Raise e) /\
      BrowseTheWeb.page self (mkWorld (heap w) d1)
        = (mkWorld (heap w) d1, Ret p)).
Proof.
  intros H. split.
  - intros c d1 e Hc Hclose. split.
    + unfold BrowseTheWeb.close_context, bind at 1.
      rewrite (the_browse_at _ _ _ H), Hc.
      unfold bind at 1, call. by rewrite Hclose.
    + intros p Hp. by eapply page_cached.
  - intros p d1 e Hp Hclose. split.
    + unfold BrowseTheWeb.close_page, bind at 1.
      rewrite (the_browse_at _ _ _ H), Hp.
      unfold bind at 1, call. by rewrite Hclose.
    + by eapply page_cached.
Qed.


Lemma context_keeps_page (w : world D) self b :
  heap w !! self = Some (OBrowse b) ->
  exists b', heap (BrowseTheWeb.context self w).1 !! self = Some (OBrowse b') /\
             _page b' = _page b.
Proof.
  intros H. unfold BrowseTheWeb.context, bind at 1.
  rewrite (the_browse_at _ _ _ H).
  destruct (_context b) as [c|]; [by exists b|].
  unfold bind at 1, call.
  destruct (new_context D (_browser b) (drv w)) as [d [c|e]]; [|by exists b].
  unfold bind, BrowseTheWeb.set_context, bind, the_browse, store, ret.
  cbn [heap drv]. rewrite H. cbn.
  eexists. split; [apply lookup_insert_eq | done].
Qed.

(** X12. [new_page()] never touches the cached page: whatever it does
    (use the cached context or create one, return a page or raise), the
    instance's [_page] afterwards is what it was before. With a cached
    context it calls the driver's [new_page] on that context, returns
    what the driver returns and leaves the whole instance as it was. *)
Theorem new_page_does_not_cache
    (w : world D) (self : ref) (b : BrowseTheWebObj) :
  heap w !! self = Some (OBrowse b) ->
  (exists b', heap (BrowseTheWeb.new_page self w).1 !! self = Some (OBrowse b') /\
              _page b' = _page b) /\
  (forall c,
      _context b = Some c ->
      BrowseTheWeb.new_page self w
        = (mkWorld (heap w) (Playwright.new_page D c (drv w)).1,
           (Playwright.new_page D c (drv w)).2)).
Proof.
  intros H. split.
  - destruct (context_keeps_page w self b H) as (b' & Hb' & Hp).
    exists b'. split; [|done].
    unfold BrowseTheWeb.new_page, bind.
    destruct (BrowseTheWeb.context self w) as [w1 [c|e]]; [|done].
    unfold call. by destruct (Playwright.new_page D c (drv w1)).
  - intros c Hc. unfold BrowseTheWeb.new_page, bind.
    rewrite (context_cached _ _ _ _ H Hc). unfold call.
    by destruct (Playwright.new_page D c (drv w)).
Qed.

End caches_more.

(** ** Interactions and questions *)

Section interactions_more.
Context {D : Driver}.

Lemma start_with_page (w w1 : world D) actor a r p (k : handle -> M D PyVal) :
  heap w !! actor = Some (OActor a) ->
  _abilities a !! BrowseTheWeb.cls = Some r ->
  BrowseTheWeb.page r w = (w1, Ret p) ->
  (browse_ability <- Actor.ability_to actor BrowseTheWeb.cls;;
   page <- BrowseTheWeb.page browse_ability;; k page) w
  = k p w1.
Proof.
  intros HA Hr Hpage. unfold bind at 1.
  rewrite (ability_to_found _ _ _ _ _ HA Hr).
  unfold bind at 1. by rewrite Hpage.
Qed.

Lemma start_without_ability (w : world D) actor a (k : handle -> M D PyVal) :
  heap w !! actor = Some (OActor a) ->
  _abilities a !! BrowseTheWeb.cls = None ->
  (browse_ability <- Actor.ability_to actor BrowseTheWeb.cls;;
   page <- BrowseTheWeb.page browse_ability;; k page) w
  = (w, Raise (mkExc "ValueError"
                 ("Actor " +:+ name a +:+ " does not have the ability BrowseTheWeb"))).
Proof.
  intros HA Hr. unfold bind at 1.
  by rewrite (ability_to_missing _ _ _ _ HA Hr).
Qed.

(** X13. An actor without the [BrowseTheWeb] ability cannot touch the
    browser: every interaction ([Type], [Click], [Navigate]) and every
    question ([Text], [CurrentUrl], [PageTitle], [Visibility],
    [Presence]) performed by such an actor raises the [ValueError] of
    [ability_to] and leaves the world, the driver included, exactly as it
    was. *)
Theorem no_ability_no_driver_call
    (R : PageReads D) (w : world D) (actor : ref) (a : ActorObj)
    (ty : Type_.t) (cl : Click.t) (nav : Navigate.t) (locator : string) :
  heap w !! actor = Some (OActor a) ->
  _abilities a !! BrowseTheWeb.cls = None ->
  let failure : world D * outcome PyVal :=
    (w, Raise (mkExc "ValueError"
                 ("Actor " +:+ name a +:+ " does not have the ability BrowseTheWeb"))) in
  Type_.perform_as ty actor w = failure /\
  Click.perform_as cl actor w = failure /\
  Navigate.perform_as nav actor w = failure /\
  Text.answered_by locator actor w = failure /\
  CurrentUrl.answered_by R actor w = failure /\
  PageTitle.answered_by R actor w = failure /\
  Visibility.answered_by locator actor w = failure /\
  Presence.answered_by locator actor w = failure.
Proof.
  intros HA Hr failure. unfold failure.
  split_and!; by apply start_without_ability.
Qed.

(** X14. [Click] waits for its locator to be visible before it clicks:
    when the wait raises, that exception is the outcome and no click is
    issued; when the wait returns, the click is issued with the options
    exactly as given (none removed, ['clear'] included if present), and
    the interaction returns [None] or raises what the click raised. *)
Theorem click_waits_then_clicks
    (w w1 : world D) (actor r : ref) (a : ActorObj) (p : handle)
    (self : Click.t) :
  heap w !! actor = Some (OActor a) ->
  _abilities a !! BrowseTheWeb.cls = Some r ->
  BrowseTheWeb.page r w = (w1, Ret p) ->
  (forall d2 e,
      wait_for_selector D p (Click.locator self) "visible" (drv w1) = (d2, Raise e) ->
      Click.perform_as self actor w = (mkWorld (heap w1) d2, Raise e)) /\
  (forall d2 d3,
      wait_for_selector D p (Click.locator self) "visible" (drv w1) = (d2, Ret tt) ->
      click D p (Click.locator self) (Click.options self) d2 = (d3, Ret tt) ->
      Click.perform_as self actor w = (mkWorld (heap w1) d3, Ret VNone)) /\
  (forall d2 d3 e,
      wait_for_selector D p (Click.locator self) "visible" (drv w1) = (d2, Ret tt) ->
      click D p (Click.locator self) (Click.options self) d2 = (d3, Raise e) ->
      Click.perform_as self actor w = (mkWorld (heap w1) d3, Raise e)).
Proof.
  intros HA Hr Hpage. split_and!.
  - intros d2 e Hwait. unfold Click.perform_as.
    rewrite (start_with_page w w1 actor a r p) by done.
    unfold bind at 1, call. by rewrite Hwait.
  - intros d2 d3 Hwait Hclick. unfold Click.perform_as.
    rewrite (start_with_page w w1 actor a r p) by done.
    unfold bind at 1, call at 1. rewrite Hwait.
    unfold bind, call, ret. cbn [heap drv]. by rewrite Hclick.
  - intros d2 d3 e Hwait Hclick. unfold Click.perform_as.
    rewrite (start_with_page w w1 actor a r p) by done.
    unfold bind at 1, call at 1. rewrite Hwait.
    unfold bind, call, ret. cbn [heap drv]. by rewrite Hclick.
Qed.

(** X15. [Navigate] goes to its URL with the options as given and then
    waits for the load state ["networkidle"]: when [goto] raises, that
    exception is the outcome and the wait is not issued; when [goto]
    returns, the outcome is that of the wait ([None] if it returns). *)
Theorem navigate_goes_then_waits
    (w w1 : world D) (actor r : ref) (a : ActorObj) (p : handle)
    (self : Navigate.t) :
  heap w !! actor = Some (OActor a) ->
  _abilities a !! BrowseTheWeb.cls = Some r ->
  BrowseTheWeb.page r w = (w1, Ret p) ->
  (forall d2 e,
      goto D p (Navigate.url self) (Navigate.options self) (drv w1) = (d2, Raise e) ->
      Navigate.perform_as self actor w = (mkWorld (heap w1) d2, Raise e)) /\
  (forall d2 d3,
      goto D p (Navigate.url self) (Navigate.options self) (drv w1) = (d2, Ret tt) ->
      wait_for_load_state D p "networkidle" d2 = (d3, Ret tt) ->
      Navigate.perform_as self actor w = (mkWorld (heap w1) d3, Ret VNone)) /\
  (forall d2 d3 e,
      goto D p (Navigate.url self) (Navigate.options self) (drv w1) = (d2, Ret tt) ->
      wait_for_load_state D p "networkidle" d2 = (d3, Raise e) ->
      Navigate.perform_as self actor w = (mkWorld (heap w1) d3, Raise e)).
Proof.
  intros HA Hr Hpage. split_and!.
  - intros d2 e Hgoto. unfold Navigate.perform_as.
    rewrite (start_with_page w w1 actor a r p) by done.
    unfold bind at 1, call. by rewrite Hgoto.
  - intros d2 d3 Hgoto Hwait. unfold Navigate.perform_as.
    rewrite (start_with_page w w1 actor a r p) by done.
    unfold bind at 1, call at 1. rewrite Hgoto.
    unfold bind, call, ret. cbn [heap drv]. by rewrite Hwait.
  - intros d2 d3 e Hgoto Hwait. unfold Navigate.perform_as.
    rewrite (start_with_page w w1 actor a r p) by done.
    unfold bind at 1, call at 1. rewrite Hgoto.
    unfold bind, call, ret. cbn [heap drv]. by rewrite Hwait.
Qed.

End interactions_more.

(** ** The login tasks *)

Section login_tasks.
Context {D : Driver}.

Lemma login_url (settings : Settings.EnvironmentSettings) :
  Settings.get_test_urls settings !! "login"
    = Some (Settings.base_url settings +:+ "/practice-test-login/").
Proof. unfold Settings.get_test_urls. by simplify_map_eq. Qed.

(** X16. [Login(u, p)] is the three smaller tasks in a row: for every
    actor, in every world and on every driver,
    [attempts_to(Login(u, p))] has the outcome and the effects of
    [attempts_to(NavigateToLoginPage(), EnterCredentials(u, p),
    SubmitLoginForm())], failures included. *)
Theorem login_is_navigate_enter_submit
    (settings : Settings.EnvironmentSettings) (self : Login.t)
    (actor : ref) (w : world D) :
  Actor.attempts_to actor [Login.performable settings self] w
  = Actor.attempts_to actor
      [NavigateToLoginPage.performable settings;
       EnterCredentials.performable
         (EnterCredentials.with_values (Login.username self) (Login.password self));
       SubmitLoginForm.performable] w.
Proof.
  unfold Actor.attempts_to.
  cbn [Actor.attempts_to_loop perform_as Login.performable
       NavigateToLoginPage.performable EnterCredentials.performable
       SubmitLoginForm.performable].
  unfold Login.perform_as, NavigateToLoginPage.perform_as,
    EnterCredentials.perform_as, SubmitLoginForm.perform_as, getitem.
  rewrite login_url. unfold Actor.attempts_to.
  cbn [Actor.attempts_to_loop EnterCredentials.username EnterCredentials.password
       EnterCredentials.with_values].
  unfold bind, ret.
  repeat (case_match; simplify_eq; try done).
Qed.

Lemma run_calls_app (cs cs' : list (dstate D -> dstate D * outcome unit)) d :
  run_calls (cs ++ cs') d
  = match run_calls cs d with
    | (d', Ret _) => run_calls cs' d'
    | (d', Raise e) => (d', Raise e)
    end.
Proof.
  revert d. induction cs as [|c cs IH]; intros d; [done|].
  cbn [app run_calls]. destruct (c d) as [d' [u|e]]; [apply IH | done].
Qed.

Lemma page_of_holder (w : world D) actor p (k : handle -> M D PyVal) :
  holds_page (heap w) actor p ->
  (browse_ability <- Actor.ability_to actor BrowseTheWeb.cls;;
   page <- BrowseTheWeb.page browse_ability;; k page) w
  = k p w.
Proof.
  intros (a & r & b & HA & Hr & Hb & Hp).
  apply (start_with_page w w actor a r p); [done | done |].
  by eapply page_cached.
Qed.

Lemma holder_after_page (w w1 : world D) actor a r p :
  heap w !! actor = Some (OActor a) ->
  _abilities a !! BrowseTheWeb.cls = Some r ->
  BrowseTheWeb.page r w = (w1, Ret p) ->
  holds_page (heap w1) actor p.
Proof.
  intros HA Hr Hpage.
  destruct (page_returns_cached _ _ _ _ Hpage) as (b1 & Hb1 & Hp).
  exists a, r, b1. split_and!; try done.
  assert (actor ≠ r) as Hne.
  { intros ->. revert Hpage.
    unfold BrowseTheWeb.page, bind, the_browse. by rewrite HA. }
  pose proof (frames_page r w actor Hne) as Hframe.
  rewrite Hpage in Hframe. cbn [fst] in Hframe. by rewrite Hframe.
Qed.

Lemma navigate_driver_only (w : world D) actor p (nav : Navigate.t) :
  holds_page (heap w) actor p ->
  Navigate.perform_as nav actor w
  = driver_only [goto D p (Navigate.url nav) (Navigate.options nav);
                 wait_for_load_state D p "networkidle"] w.
Proof.
  intros H. unfold Navigate.perform_as. rewrite (page_of_holder w actor p) by done.
  unfold driver_only, run_calls, bind, call, ret.
  destruct (goto D p (Navigate.url nav) (Navigate.options nav) (drv w)) as [d2 [u|e]];
    [|done].
  cbn [heap drv].
  by destruct (wait_for_load_state D p "networkidle" d2) as [d3 [u'|e]].
Qed.

Lemma click_driver_only (w : world D) actor p (cl : Click.t) :
  holds_page (heap w) actor p ->
  Click.perform_as cl actor w
  = driver_only [wait_for_selector D p (Click.locator cl) "visible";
                 click D p (Click.locator cl) (Click.options cl)] w.
Proof.
  intros H. unfold Click.perform_as. rewrite (page_of_holder w actor p) by done.
  unfold driver_only, run_calls, bind, call, ret.
  destruct (wait_for_selector D p (Click.locator cl) "visible" (drv w)) as [d2 [u|e]];
    [|done].
  cbn [heap drv].
  by destruct (click D p (Click.locator cl) (Click.options cl) d2) as [d3 [u'|e]].
Qed.

Lemma type_driver_only (w : world D) actor p (text locator : string) :
  holds_page (heap w) actor p ->
  Type_.perform_as (Type_.the_text_into text locator ∅) actor w
  = driver_only [wait_for_selector D p locator "visible";
                 fill D p locator "";
                 type D p locator text ∅] w.
Proof.
  intros H. unfold Type_.perform_as. rewrite (page_of_holder w actor p) by done.
  assert (Type_.clear_first (Type_.the_text_into text locator ∅) = true) as ->
    by done.
  assert (Type_.passed_options (Type_.the_text_into text locator ∅) = ∅) as ->.
  { unfold Type_.passed_options, Type_.the_text_into, Type_.new.
    change (filter (fun kv : string * PyVal => kv.1 ≠ "clear") (∅ : gmap string PyVal) = ∅).
    apply map_filter_empty. }
  cbn [Type_.locator Type_.text Type_.the_text_into Type_.new].
  unfold driver_only, run_calls, bind, call, ret.
  destruct (wait_for_selector D p locator "visible" (drv w)) as [d2 [u|e]]; [|done].
  cbn [heap drv].
  destruct (fill D p locator "" d2) as [d3 [u'|e]]; [|done].
  cbn [heap drv].
  by destruct (type D p locator text ∅ d3) as [d4 [u''|e]].
Qed.

Lemma driver_only_then (cs cs' : list (dstate D -> dstate D * outcome unit))
    (w : world D) :
  (driver_only cs >> driver_only cs') w = driver_only (cs ++ cs') w.
Proof.
  unfold bind, driver_only. rewrite run_calls_app.
  by destruct (run_calls cs (drv w)) as [d [u|e]].
Qed.

Lemma attempts_to_loop_driver_only actor p
    (qs : list (Performable D))
    (css : list (list (dstate D -> dstate D * outcome unit))) :
  Forall2 (fun q cs => forall w' : world D,
               holds_page (heap w') actor p ->
               perform_as q actor w' = driver_only cs w') qs css ->
  forall w : world D,
    holds_page (heap w) actor p ->
    Actor.attempts_to_loop actor qs w
    = match run_calls (concat css) (drv w) with
      | (d, Ret _) => (mkWorld (heap w) d, Ret tt)
      | (d, Raise e) => (mkWorld (heap w) d, Raise e)
      end.
Proof.
  induction 1 as [|q cs qs css Hq _ IH]; intros w Hw; [by destruct w|].
  cbn [Actor.attempts_to_loop concat]. unfold bind at 1.
  rewrite (Hq w Hw). unfold driver_only. rewrite run_calls_app.
  destruct (run_calls cs (drv w)) as [d [u|e]]; [|done].
  by rewrite (IH (mkWorld (heap w) d)).
Qed.

Lemma attempts_to_first_navigate actor (nav : Navigate.t)
    (rest : list (Performable D)) (w w1 : world D) :
  Navigate.perform_as nav actor w = Navigate.perform_as nav actor w1 ->
  Actor.attempts_to actor (Navigate.performable nav :: rest) w
  = Actor.attempts_to actor (Navigate.performable nav :: rest) w1.
Proof.
  intros H.
  assert (Actor.attempts_to_loop actor (Navigate.performable nav :: rest) w
          = Actor.attempts_to_loop actor (Navigate.performable nav :: rest) w1) as Hl.
  { cbn [Actor.attempts_to_loop]. unfold bind.
    cbn [perform_as Navigate.performable]. by rewrite H. }
  unfold Actor.attempts_to, bind. by rewrite Hl.
Qed.

(** X17. What [Login] asks of the driver. For an actor holding the
    [BrowseTheWeb] ability (its page [p] at hand), [Login(u, pw)] makes
    these ten driver calls on [p], in this order, and stops at the first
    that raises, whose exception it raises: [goto] the login URL,
    wait for ["networkidle"]; wait for the username field, fill it with
    the empty string, type [u]; the same three for the password field
    and [pw]; wait for the submit button, click it. When all return it
    returns [None]. No object is changed after the page was obtained. *)
Theorem login_driver_calls
    (settings : Settings.EnvironmentSettings) (self : Login.t)
    (w w1 : world D) (actor r : ref) (a : ActorObj) (p : handle) :
  heap w !! actor = Some (OActor a) ->
  _abilities a !! BrowseTheWeb.cls = Some r ->
  BrowseTheWeb.page r w = (w1, Ret p) ->
  Login.perform_as settings self actor w
  = driver_only
      [goto D p (Settings.base_url settings +:+ "/practice-test-login/") ∅;
       wait_for_load_state D p "networkidle";
       wait_for_selector D p "#username" "visible";
       fill D p "#username" "";
       type D p "#username" (Login.username self) ∅;
       wait_for_selector D p "#password" "visible";
       fill D p "#password" "";
       type D p "#password" (Login.password self) ∅;
       wait_for_selector D p "#submit" "visible";
       click D p "#submit" ∅] w1.
Proof.
  intros HA Hr Hpage.
  pose proof (holder_after_page _ _ _ _ _ _ HA Hr Hpage) as Hready.
  unfold Login.perform_as, getitem. rewrite login_url.
  change ((Actor.attempts_to actor
             [Navigate.performable
                (Navigate.to (Settings.base_url settings +:+ "/practice-test-login/") ∅);
              Type_.performable (Type_.the_text_into (Login.username self) "#username" ∅);
              Type_.performable (Type_.the_text_into (Login.password self) "#password" ∅);
              Click.performable (Click.on "#submit" ∅)] >> ret VNone) w
          = driver_only
              (concat
                 [[goto D p (Settings.base_url settings +:+ "/practice-test-login/") ∅;
                   wait_for_load_state D p "networkidle"];
                  [wait_for_selector D p "#username" "visible";
                   fill D p "#username" "";
                   type D p "#username" (Login.username self) ∅];
                  [wait_for_selector D p "#password" "visible";
                   fill D p "#password" "";
                   type D p "#password" (Login.password self) ∅];
                  [wait_for_selector D p "#submit" "visible";
                   click D p "#submit" ∅]]) w1).
  unfold bind at 1. rewrite (attempts_to_first_navigate actor _ _ w w1).
  - unfold Actor.attempts_to, bind at 1.
    rewrite (attempts_to_loop_driver_only actor p _
               [[goto D p (Settings.base_url settings +:+ "/practice-test-login/") ∅;
                 wait_for_load_state D p "networkidle"];
                [wait_for_selector D p "#username" "visible";
                 fill D p "#username" "";
                 type D p "#username" (Login.username self) ∅];
                [wait_for_selector D p "#password" "visible";
                 fill D p "#password" "";
                 type D p "#password" (Login.password self) ∅];
                [wait_for_selector D p "#submit" "visible";
                 click D p "#submit" ∅]]); [|  | done].
    + unfold driver_only.
      by destruct (run_calls _ (drv w1)) as [d [u|e]].
    + repeat constructor; intros w' Hw'; cbn [perform_as Navigate.performable
        Type_.performable Click.performable].
      * by apply navigate_driver_only.
      * by apply type_driver_only.
      * by apply type_driver_only.
      * by apply click_driver_only.
  - unfold Navigate.perform_as.
    rewrite (start_with_page w w1 actor a r p) by done.
    by rewrite (page_of_holder w1 actor p).
Qed.

(** X18. The factories of [Login] find their keys: the dict of
    [get_credentials()] has the keys they index, so they never raise
    [KeyError]; [with_valid_credentials()] is the login with the valid
    user name and the valid password of the settings, and
    [with_invalid_credentials()] the login with the invalid user name and
    the invalid password. *)
Theorem login_factories_read_settings
    (settings : Settings.EnvironmentSettings) (w : world D) :
  Login.with_valid_credentials settings w
    = (w, Ret (Login.with_credentials (Settings.valid_username settings)
                                      (Settings.valid_password settings))) /\
  Login.with_invalid_credentials settings w
    = (w, Ret (Login.with_credentials (Settings.invalid_username settings)
                                      (Settings.invalid_password settings))).
Proof.
  unfold Login.with_valid_credentials, Login.with_invalid_credentials,
    Settings.get_credentials, getitem, bind, ret.
  split; by simplify_map_eq.
Qed.

End login_tasks.

(** ** Diagnostics and fixtures *)

Section diagnostics.
Context {D : Driver}.

(** X19. The string of an ability names the actor it is bound to: after
    [A.who_can(X)], [str] of the ability that [A.ability_to] returns is
    ["BrowseTheWeb(actor=<A.name>)"], while [str] of the unbound [X]
    is still ["BrowseTheWeb(actor=Unknown)"]; [str(A)] is
    ["Actor(<A.name>)"]. *)
Theorem str_names_the_holding_actor
    (w : world D) (A x : ref) (a : ActorObj) (bx : BrowseTheWebObj) :
  heap w !! A = Some (OActor a) ->
  heap w !! x = Some (OBrowse bx) ->
  _actor bx = None ->
  exists w' r,
    Actor.who_can A [x] w = (w', Ret A) /\
    Actor.ability_to A (ob_class bx) w' = (w', Ret r) /\
    BrowseTheWeb.__str__ r w'
      = (w', Ret ("BrowseTheWeb(actor=" +:+ name a +:+ ")")) /\
    BrowseTheWeb.__str__ x w' = (w', Ret "BrowseTheWeb(actor=Unknown)") /\
    Actor.__str__ A w' = (w', Ret ("Actor(" +:+ name a +:+ ")")).
Proof.
  intros HA Hx Hactor.
  pose proof (fresh_not_allocated _ _ _ HA) as Hne1.
  pose proof (fresh_not_allocated _ _ _ Hx) as Hne2.
  assert (A ≠ x) as Hne3 by (intros ->; congruence).
  eexists _, (fresh (dom (heap w))).
  split; [by apply who_can_one_run|].
  match goal with |- context [mkWorld ?h ?d] => set (w' := mkWorld h d) end.
  assert (heap w' !! A
          = Some (OActor (mkActor (name a)
                            (<[ob_class bx := fresh (dom (heap w))]> (_abilities a)))))
    as HA' by apply lookup_insert_eq.
  assert (heap w' !! fresh (dom (heap w)) = Some (bound_copy bx A)) as Hr'.
  { unfold w'. cbn [heap]. by rewrite lookup_insert_ne, lookup_insert_eq. }
  assert (heap w' !! x = Some (OBrowse bx)) as Hx'.
  { unfold w'. cbn [heap]. by rewrite !lookup_insert_ne. }
  split_and!.
  - eapply ability_to_found; [exact HA' | apply lookup_insert_eq].
  - unfold BrowseTheWeb.__str__, bind.
    rewrite (the_browse_at w' _ _ Hr'). cbn [_actor]. by rewrite HA'.
  - unfold BrowseTheWeb.__str__, bind.
    by rewrite (the_browse_at w' _ _ Hx'), Hactor.
  - unfold Actor.__str__, bind. by rewrite (the_actor_at w' _ _ HA').
Qed.

(** X20. The [actor] fixture builds a new actor on the page it is given
    and makes no driver call: the actor holds a [BrowseTheWeb] ability
    whose [page] property returns that very page and whose [context]
    property returns the page's own context, nothing is created lazily,
    and every object that existed before is left as it was. *)
Theorem fixture_actor_uses_the_given_page
    (R : PageReads D) (w : world D) (page : handle) :
  exists w' A r,
    Fixtures.actor R page w = (w', Ret A) /\
    drv w' = drv w /\
    heap w !! A = None /\
    Actor.__str__ A w' = (w', Ret "Actor(TestUser)") /\
    Actor.ability_to A BrowseTheWeb.cls w' = (w', Ret r) /\
    BrowseTheWeb.page r w' = (w', Ret page) /\
    BrowseTheWeb.context r w' = (w', Ret (page_context R page)) /\
    (forall q o, heap w !! q = Some o -> heap w' !! q = Some o).
Proof.
  set (rA := fresh (dom (heap w))).
  set (a0 := mkActor "TestUser" ∅).
  set (w1 := mkWorld (<[rA := OActor a0]> (heap w)) (drv w)).
  set (bx := mkBrowse BrowseTheWeb.cls (context_browser R (page_context R page))
               (Some (page_context R page)) (Some page) None).
  set (rx := fresh (dom (heap w1))).
  set (w2 := mkWorld (<[rx := OBrowse bx]> (heap w1)) (drv w1)).
  assert (heap w1 !! rA = Some (OActor a0)) as HA1 by apply lookup_insert_eq.
  pose proof (fresh_not_allocated _ _ _ HA1) as Hne1. fold rx in Hne1.
  assert (heap w2 !! rA = Some (OActor a0)) as HA2.
  { unfold w2. cbn [heap]. by rewrite lookup_insert_ne. }
  assert (heap w2 !! rx = Some (OBrowse bx)) as Hx2 by apply lookup_insert_eq.
  pose proof (fresh_not_allocated _ _ _ HA2) as Hne2.
  pose proof (fresh_not_allocated _ _ _ Hx2) as Hne3.
  set (rb := fresh (dom (heap w2))) in *.
  set (a1 := mkActor "TestUser" (<[BrowseTheWeb.cls := rb]> ∅)).
  set (w3 := mkWorld (<[rA := OActor a1]> (<[rb := bound_copy bx rA]> (heap w2))) (drv w2)).
  assert (Hrun : Fixtures.actor R page w = (w3, Ret rA)).
  { unfold Fixtures.actor, bind at 1, Actor.new, alloc. fold rA a0 w1.
    unfold bind at 1, BrowseTheWeb.using_page, BrowseTheWeb.new, alloc.
    fold bx rx w2.
    by rewrite (who_can_one_run w2 rA a0 rx bx). }
  assert (heap w3 !! rA = Some (OActor a1)) as HA3 by apply lookup_insert_eq.
  assert (heap w3 !! rb = Some (bound_copy bx rA)) as Hb3.
  { unfold w3. cbn [heap]. by rewrite lookup_insert_ne, lookup_insert_eq. }
  exists w3, rA, rb. split_and!; try done.
  - apply not_elem_of_dom, is_fresh.
  - unfold Actor.__str__, bind. by rewrite (the_actor_at w3 _ _ HA3).
  - eapply ability_to_found; [exact HA3 | apply lookup_insert_eq].
  - by eapply page_cached.
  - by eapply context_cached.
  - intros q o Hq.
    assert (rA ≠ q) by by eapply fresh_not_allocated.
    assert (heap w1 !! q = Some o) as Hq1.
    { unfold w1. cbn [heap]. by rewrite lookup_insert_ne. }
    assert (rx ≠ q) by by eapply fresh_not_allocated.
    assert (heap w2 !! q = Some o) as Hq2.
    { unfold w2. cbn [heap]. by rewrite lookup_insert_ne. }
    assert (rb ≠ q) by by eapply fresh_not_allocated.
    unfold w3. cbn [heap]. by rewrite !lookup_insert_ne.
Qed.

End diagnostics.

(** ** Concrete instances *)

Lemma who_can_keeps_other_kinds_witness :
  heap Examples.actor_and_ability !! 1%positive
    = Some (OActor (mkActor "TestUser" ∅)) /\
  heap Examples.actor_and_ability !! 2%positive
    = Some (OBrowse (mkBrowse BrowseTheWeb.cls 7 (Some 8) (Some 9) None)) /\
  Examples.AdminBrowseTheWeb ≠ BrowseTheWeb.cls /\
  exists w',
    Actor.who_can 1%positive [2%positive] Examples.actor_and_ability
      = (w', Ret 1%positive) /\
    (Actor.has_ability_to 1%positive Examples.AdminBrowseTheWeb w').2
      = (Actor.has_ability_to 1%positive Examples.AdminBrowseTheWeb
           Examples.actor_and_ability).2 /\
    (Actor.ability_to 1%positive Examples.AdminBrowseTheWeb w').2
      = (Actor.ability_to 1%positive Examples.AdminBrowseTheWeb
           Examples.actor_and_ability).2.
Proof.
  split; [vm_compute; reflexivity|]. split; [vm_compute; reflexivity|].
  split; [discriminate|].
  apply (who_can_keeps_other_kinds Examples.actor_and_ability
           1%positive 2%positive (mkActor "TestUser" ∅)
           (mkBrowse BrowseTheWeb.cls 7 (Some 8) (Some 9) None)
           Examples.AdminBrowseTheWeb);
    [vm_compute; reflexivity | vm_compute; reflexivity | discriminate].
Defined.

Lemma one_ability_two_actors_witness :
  heap Examples.two_actors_and_ability !! 1%positive
    = Some (OActor (mkActor "TestUser" ∅)) /\
  heap Examples.two_actors_and_ability !! 2%positive
    = Some (OActor (mkActor "AdminUser" ∅)) /\
  heap Examples.two_actors_and_ability !! 3%positive
    = Some (OBrowse (mkBrowse BrowseTheWeb.cls 7 (Some 8) (Some 9) None)) /\
  exists w1 w2 rA rB,
    Actor.who_can 1%positive [3%positive] Examples.two_actors_and_ability
      = (w1, Ret 1%positive) /\
    Actor.who_can 2%positive [3%positive] w1 = (w2, Ret 2%positive) /\
    Actor.ability_to 1%positive BrowseTheWeb.cls w2 = (w2, Ret rA) /\
    Actor.ability_to 2%positive BrowseTheWeb.cls w2 = (w2, Ret rB) /\
    rA ≠ rB /\
    heap w2 !! rA
      = Some (OBrowse (mkBrowse BrowseTheWeb.cls 7 (Some 8) (Some 9) (Some 1%positive))) /\
    heap w2 !! rB
      = Some (OBrowse (mkBrowse BrowseTheWeb.cls 7 (Some 8) (Some 9) (Some 2%positive))).
Proof.
  split; [vm_compute; reflexivity|]. split; [vm_compute; reflexivity|].
  split; [vm_compute; reflexivity|].
  destruct (one_ability_two_actors Examples.two_actors_and_ability
              1%positive 2%positive 3%positive
              (mkActor "TestUser" ∅) (mkActor "AdminUser" ∅)
              (mkBrowse BrowseTheWeb.cls 7 (Some 8) (Some 9) None))
    as (w1 & w2 & rA & rB & H1 & H2 & H3 & H4 & H5 & H6 & H7 & _);
    [vm_compute; reflexivity | vm_compute; reflexivity | discriminate
    | vm_compute; reflexivity |].
  exists w1, w2, rA, rB. split_and!; assumption.
Defined.

Lemma has_ability_to_guards_ability_to_witness :
  heap Examples.granted_quiet !! 1%positive
    = Some (OActor (mkActor "TestUser" {[BrowseTheWeb.cls := 3%positive]})) /\
  Actor.has_ability_to 1%positive BrowseTheWeb.cls Examples.granted_quiet
    = (Examples.granted_quiet, Ret true) /\
  exists r, Actor.ability_to 1%positive BrowseTheWeb.cls Examples.granted_quiet
              = (Examples.granted_quiet, Ret r).
Proof.
  split; [vm_compute; reflexivity|].
  destruct (has_ability_to_guards_ability_to Examples.granted_quiet 1%positive
              (mkActor "TestUser" {[BrowseTheWeb.cls := 3%positive]}) BrowseTheWeb.cls)
    as [[Hhas (r & _ & Hget)] | [Hhas _]]; [vm_compute; reflexivity | |].
  - split; [exact Hhas | exists r; exact Hget].
  - vm_compute in Hhas. discriminate Hhas.
Defined.

Lemma context_idempotent_witness :
  BrowseTheWeb.context 1%positive Examples.unused_ability
    = (Examples.ability_with_context, Ret 10) /\
  BrowseTheWeb.context 1%positive Examples.ability_with_context
    = (Examples.ability_with_context, Ret 10).
Proof.
  split; [vm_compute; reflexivity|].
  apply (context_idempotent Examples.unused_ability). vm_compute; reflexivity.
Defined.

Lemma page_idempotent_witness :
  BrowseTheWeb.page 1%positive Examples.unused_ability
    = (Examples.ability_with_page, Ret 11) /\
  BrowseTheWeb.page 1%positive Examples.ability_with_page
    = (Examples.ability_with_page, Ret 11).
Proof.
  split; [vm_compute; reflexivity|].
  apply (page_idempotent Examples.unused_ability). vm_compute; reflexivity.
Defined.

Lemma page_retry_reuses_context_witness :
  heap Examples.unused_ability_new_page_fails !! 1%positive
    = Some (OBrowse (mkBrowse BrowseTheWeb.cls 7 None None None)) /\
  new_context Examples.new_page_fails 7 (drv Examples.unused_ability_new_page_fails)
    = (Mock.mkState [Mock.CNewContext 7] 11, Ret 10) /\
  Playwright.new_page Examples.new_page_fails 10 (Mock.mkState [Mock.CNewContext 7] 11)
    = (Mock.mkState [Mock.CNewContext 7; Mock.CNewPage 10] 11, Raise Mock.Error) /\
  exists w1,
    BrowseTheWeb.page 1%positive Examples.unused_ability_new_page_fails
      = (w1, Raise Mock.Error) /\
    heap w1 !! 1%positive
      = Some (OBrowse (mkBrowse BrowseTheWeb.cls 7 (Some 10) None None)).
Proof.
  split; [vm_compute; reflexivity|]. split; [vm_compute; reflexivity|].
  split; [vm_compute; reflexivity|].
  destruct (page_retry_reuses_context Examples.unused_ability_new_page_fails
              1%positive (mkBrowse BrowseTheWeb.cls 7 None None None) 10
              (Mock.mkState [Mock.CNewContext 7] 11)
              (Mock.mkState [Mock.CNewContext 7; Mock.CNewPage 10] 11) Mock.Error)
    as (w1 & Hpage & Hcached & _); [vm_compute; reflexivity ..|].
  exists w1. split; assumption.
Defined.

Lemma close_page_keeps_context_witness :
  heap Examples.lone_ability !! 1%positive
    = Some (OBrowse (mkBrowse BrowseTheWeb.cls 7 (Some 8) (Some 9) None)) /\
  page_close Mock.quiet 9 (drv Examples.lone_ability)
    = (Mock.mkState [Mock.CPageClose 9] 10, Ret tt) /\
  exists w1,
    BrowseTheWeb.close_page 1%positive Examples.lone_ability = (w1, Ret tt) /\
    heap w1 !! 1%positive
      = Some (OBrowse (mkBrowse BrowseTheWeb.cls 7 (Some 8) None None)) /\
    exists w2,
      BrowseTheWeb.page 1%positive w1 = (w2, Ret 10) /\
      heap w2 !! 1%positive
        = Some (OBrowse (mkBrowse BrowseTheWeb.cls 7 (Some 8) (Some 10) None)) /\
      Mock.calls (drv w2) = [Mock.CPageClose 9; Mock.CNewPage 8].
Proof.
  split; [vm_compute; reflexivity|]. split; [vm_compute; reflexivity|].
  destruct (close_page_keeps_context Examples.lone_ability 1%positive
              (mkBrowse BrowseTheWeb.cls 7 (Some 8) (Some 9) None) 8 9
              (Mock.mkState [Mock.CPageClose 9] 10))
    as (w1 & Hclose & Hcleared & Hd & Hnext); [vm_compute; reflexivity ..|].
  exists w1. split; [exact Hclose|]. split; [exact Hcleared|].
  destruct (Hnext (Mock.mkState [Mock.CPageClose 9; Mock.CNewPage 8] 11) 10)
    as (w2 & Hpage & Hcached & Hd2); [vm_compute; reflexivity|].
  exists w2. split; [exact Hpage|]. split; [exact Hcached|].
  rewrite Hd2. reflexivity.
Defined.

Lemma close_without_cache_is_noop_witness :
  heap Examples.unused_ability !! 1%positive
    = Some (OBrowse (mkBrowse BrowseTheWeb.cls 7 None None None)) /\
  BrowseTheWeb.close_page 1%positive Examples.unused_ability
    = (Examples.unused_ability, Ret tt) /\
  BrowseTheWeb.close_context 1%positive Examples.unused_ability
    = (Examples.unused_ability, Ret tt).
Proof.
  split; [vm_compute; reflexivity|].
  destruct (close_without_cache_is_noop Examples.unused_ability 1%positive
              (mkBrowse BrowseTheWeb.cls 7 None None None))
    as [Hpage Hcontext]; [vm_compute; reflexivity|].
  split; [apply Hpage; reflexivity | apply Hcontext; reflexivity].
Defined.

Lemma failed_close_keeps_caches_witness :
  heap Examples.lone_ability_closing_fails !! 1%positive
    = Some (OBrowse (mkBrowse BrowseTheWeb.cls 7 (Some 8) (Some 9) None)) /\
  context_close Examples.closing_fails 8 (drv Examples.lone_ability_closing_fails)
    = (Mock.mkState [Mock.CContextClose 8] 10, Raise Mock.Error) /\
  BrowseTheWeb.close_context 1%positive Examples.lone_ability_closing_fails
    = (@mkWorld Examples.closing_fails (heap Examples.lone_ability_closing_fails)
         (Mock.mkState [Mock.CContextClose 8] 10),
       Raise Mock.Error) /\
  BrowseTheWeb.page 1%positive
    (@mkWorld Examples.closing_fails (heap Examples.lone_ability_closing_fails)
       (Mock.mkState [Mock.CContextClose 8] 10))
    = (@mkWorld Examples.closing_fails (heap Examples.lone_ability_closing_fails)
         (Mock.mkState [Mock.CContextClose 8] 10),
       Ret 9).
Proof.
  split; [vm_compute; reflexivity|]. split; [vm_compute; reflexivity|].
  destruct (failed_close_keeps_caches Examples.lone_ability_closing_fails 1%positive
              (mkBrowse BrowseTheWeb.cls 7 (Some 8) (Some 9) None))
    as [Hcontext _]; [vm_compute; reflexivity|].
  destruct (Hcontext 8 (Mock.mkState [Mock.CContextClose 8] 10) Mock.Error)
    as [Hraise Hstale]; [reflexivity | vm_compute; reflexivity |].
  split; [exact Hraise | apply Hstale; reflexivity].
Defined.


Lemma new_page_does_not_cache_witness :
  heap Examples.lone_ability !! 1%positive
    = Some (OBrowse (mkBrowse BrowseTheWeb.cls 7 (Some 8) (Some 9) None)) /\
  BrowseTheWeb.new_page 1%positive Examples.lone_ability
    = (@mkWorld Mock.quiet (heap Examples.lone_ability)
         (Mock.mkState [Mock.CNewPage 8] 11),
       Ret 10) /\
  exists b',
    heap (BrowseTheWeb.new_page 1%positive Examples.lone_ability).1 !! 1%positive
      = Some (OBrowse b') /\
    _page b' = Some 9.
Proof.
  split; [vm_compute; reflexivity|].
  destruct (new_page_does_not_cache Examples.lone_ability 1%positive
              (mkBrowse BrowseTheWeb.cls 7 (Some 8) (Some 9) None))
    as [Hkept Hrun]; [vm_compute; reflexivity|].
  split; [rewrite (Hrun 8); [vm_compute; reflexivity | reflexivity] | exact Hkept].
Defined.

Lemma no_ability_no_driver_call_witness :
  heap Examples.lone_actor !! 1%positive = Some (OActor (mkActor "TestUser" ∅)) /\
  (∅ : gmap pyclass ref) !! BrowseTheWeb.cls = None /\
  Click.perform_as (Click.on "#submit" ∅) 1%positive Examples.lone_actor
    = (Examples.lone_actor,
       Raise (mkExc "ValueError" "Actor TestUser does not have the ability BrowseTheWeb")) /\
  CurrentUrl.answered_by (Examples.reads Mock.quiet) 1%positive Examples.lone_actor
    = (Examples.lone_actor,
       Raise (mkExc "ValueError" "Actor TestUser does not have the ability BrowseTheWeb")).
Proof.
  split; [vm_compute; reflexivity|]. split; [vm_compute; reflexivity|].
  destruct (no_ability_no_driver_call (Examples.reads Mock.quiet) Examples.lone_actor
              1%positive (mkActor "TestUser" ∅)
              Examples.typing_without_clear (Click.on "#submit" ∅)
              (Navigate.to "https://example.com" ∅) "#error")
    as (_ & Hclick & _ & _ & Hurl & _); [vm_compute; reflexivity ..|].
  split; [exact Hclick | exact Hurl].
Defined.

Lemma click_waits_then_clicks_witness :
  heap Examples.granted_click_fails !! 1%positive
    = Some (OActor (mkActor "TestUser" {[BrowseTheWeb.cls := 3%positive]})) /\
  BrowseTheWeb.page 3%positive Examples.granted_click_fails
    = (Examples.granted_click_fails, Ret 9) /\
  Click.perform_as (Click.on "#submit" ∅) 1%positive Examples.granted_click_fails
    = (@mkWorld Examples.click_fails (heap Examples.granted_click_fails)
         (Mock.mkState [Mock.CWaitForSelector 9 "#submit" "visible";
                        Mock.CClick 9 "#submit" ∅] 10),
       Raise Mock.Error).
Proof.
  split; [vm_compute; reflexivity|]. split; [vm_compute; reflexivity|].
  destruct (click_waits_then_clicks
              Examples.granted_click_fails Examples.granted_click_fails
              1%positive 3%positive
              (mkActor "TestUser" {[BrowseTheWeb.cls := 3%positive]}) 9
              (Click.on "#submit" ∅))
    as (_ & _ & Hfail); [vm_compute; reflexivity ..|].
  apply (Hfail (Mock.mkState [Mock.CWaitForSelector 9 "#submit" "visible"] 10));
    vm_compute; reflexivity.
Defined.

Lemma navigate_goes_then_waits_witness :
  heap Examples.granted_quiet !! 1%positive
    = Some (OActor (mkActor "TestUser" {[BrowseTheWeb.cls := 3%positive]})) /\
  BrowseTheWeb.page 3%positive Examples.granted_quiet
    = (Examples.granted_quiet, Ret 9) /\
  Navigate.perform_as (Navigate.to "https://example.com" ∅) 1%positive
    Examples.granted_quiet
    = (@mkWorld Mock.quiet (heap Examples.granted_quiet)
         (Mock.mkState [Mock.CGoto 9 "https://example.com" ∅;
                        Mock.CWaitForLoadState 9 "networkidle"] 10),
       Ret VNone).
Proof.
  split; [vm_compute; reflexivity|]. split; [vm_compute; reflexivity|].
  destruct (navigate_goes_then_waits
              Examples.granted_quiet Examples.granted_quiet
              1%positive 3%positive
              (mkActor "TestUser" {[BrowseTheWeb.cls := 3%positive]}) 9
              (Navigate.to "https://example.com" ∅))
    as (_ & Hok & _); [vm_compute; reflexivity ..|].
  apply (Hok (Mock.mkState [Mock.CGoto 9 "https://example.com" ∅] 10));
    vm_compute; reflexivity.
Defined.

Lemma login_driver_calls_witness :
  heap Examples.granted_quiet !! 1%positive
    = Some (OActor (mkActor "TestUser" {[BrowseTheWeb.cls := 3%positive]})) /\
  BrowseTheWeb.page 3%positive Examples.granted_quiet
    = (Examples.granted_quiet, Ret 9) /\
  (Login.perform_as Settings.defaults (Login.with_credentials "student" "Password123")
     1%positive Examples.granted_quiet).2 = Ret VNone /\
  Mock.calls
    (drv (Login.perform_as Settings.defaults
            (Login.with_credentials "student" "Password123")
            1%positive Examples.granted_quiet).1)
  = [Mock.CGoto 9 "https://practicetestautomation.com/practice-test-login/" ∅;
     Mock.CWaitForLoadState 9 "networkidle";
     Mock.CWaitForSelector 9 "#username" "visible";
     Mock.CFill 9 "#username" "";
     Mock.CType 9 "#username" "student" ∅;
     Mock.CWaitForSelector 9 "#password" "visible";
     Mock.CFill 9 "#password" "";
     Mock.CType 9 "#password" "Password123" ∅;
     Mock.CWaitForSelector 9 "#submit" "visible";
     Mock.CClick 9 "#submit" ∅].
Proof.
  split; [vm_compute; reflexivity|]. split; [vm_compute; reflexivity|].
  rewrite (login_driver_calls Settings.defaults
             (Login.with_credentials "student" "Password123")
             Examples.granted_quiet Examples.granted_quiet
             1%positive 3%positive
             (mkActor "TestUser" {[BrowseTheWeb.cls := 3%positive]}) 9);
    [| vm_compute; reflexivity ..].
  split; vm_compute; reflexivity.
Defined.

Lemma str_names_the_holding_actor_witness :
  heap Examples.actor_and_ability !! 1%positive
    = Some (OActor (mkActor "TestUser" ∅)) /\
  heap Examples.actor_and_ability !! 2%positive
    = Some (OBrowse (mkBrowse BrowseTheWeb.cls 7 (Some 8) (Some 9) None)) /\
  exists w' r,
    Actor.who_can 1%positive [2%positive] Examples.actor_and_ability
      = (w', Ret 1%positive) /\
    Actor.ability_to 1%positive BrowseTheWeb.cls w' = (w', Ret r) /\
    BrowseTheWeb.__str__ r w' = (w', Ret "BrowseTheWeb(actor=TestUser)") /\
    BrowseTheWeb.__str__ 2%positive w' = (w', Ret "BrowseTheWeb(actor=Unknown)") /\
    Actor.__str__ 1%positive w' = (w', Ret "Actor(TestUser)").
Proof.
  split; [vm_compute; reflexivity|]. split; [vm_compute; reflexivity|].
  apply (str_names_the_holding_actor Examples.actor_and_ability
           1%positive 2%positive (mkActor "TestUser" ∅)
           (mkBrowse BrowseTheWeb.cls 7 (Some 8) (Some 9) None));
    vm_compute; reflexivity.
Defined.

(** ** Chaining and plain reads *)

Section chaining.
Context {D : Driver}.

Lemma attempts_to_loop_seq (actor : ref) (ps qs : list (Performable D)) (w : world D) :
  Actor.attempts_to_loop actor (ps ++ qs) w =
    match Actor.attempts_to_loop actor ps w with
    | (w1, Ret _) => Actor.attempts_to_loop actor qs w1
    | (w1, Raise e) => (w1, Raise e)
    end.
Proof.
  revert w. induction ps as [|p ps IH]; intros w; [done|].
  cbn [app Actor.attempts_to_loop]. unfold bind.
  destruct (perform_as p actor w) as [w1 [v|e]]; [apply IH | done].
Qed.

(** X21. [attempts_to] chains: performing [ps] and [qs] in one call is
    performing [ps] in one call and, if that returns, [qs] in the next
    one on the actor it returned; if the first call raises, that is the
    outcome. With no performable at all the call returns the actor and
    changes nothing. *)
Theorem attempts_to_app
    (actor : ref) (ps qs : list (Performable D)) (w : world D) :
  Actor.attempts_to actor (ps ++ qs) w =
    match Actor.attempts_to actor ps w with
    | (w1, Ret same_actor) => Actor.attempts_to same_actor qs w1
    | (w1, Raise e) => (w1, Raise e)
    end /\
  Actor.attempts_to actor [] w = (w, Ret actor).
Proof.
  split; [|done].
  unfold Actor.attempts_to, bind. rewrite attempts_to_loop_seq.
  by destruct (Actor.attempts_to_loop actor ps w) as [w1 [[]|e]].
Qed.

(** X22. [CurrentUrl] and [PageTitle] read without waiting: for an actor
    holding the [BrowseTheWeb] ability (its page at hand), [CurrentUrl]
    answers the page's URL as the driver has it at that moment and makes
    no driver call; [PageTitle] makes the one call [title()] and answers
    its result, or raises what it raised (nothing is caught, unlike in
    [Visibility]). *)
Theorem url_and_title_read_the_page
    (R : PageReads D) (w w1 : world D) (actor r : ref) (a : ActorObj) (p : handle) :
  heap w !! actor = Some (OActor a) ->
  _abilities a !! BrowseTheWeb.cls = Some r ->
  BrowseTheWeb.page r w = (w1, Ret p) ->
  CurrentUrl.answered_by R actor w = (w1, Ret (VStr (page_url R p (drv w1)))) /\
  PageTitle.answered_by R actor w
    = (mkWorld (heap w1) (page_title R p (drv w1)).1,
       match (page_title R p (drv w1)).2 with
       | Ret t => Ret (VStr t)
       | Raise e => Raise e
       end).
Proof.
  intros HA Hr Hpage. split.
  - unfold CurrentUrl.answered_by.
    by rewrite (start_with_page w w1 actor a r p).
  - unfold PageTitle.answered_by.
    rewrite (start_with_page w w1 actor a r p) by done.
    unfold bind, call, ret.
    by destruct (page_title R p (drv w1)) as [d [t|e]].
Qed.

End chaining.

Lemma url_and_title_read_the_page_witness :
  heap Examples.granted_quiet !! 1%positive
    = Some (OActor (mkActor "TestUser" {[BrowseTheWeb.cls := 3%positive]})) /\
  BrowseTheWeb.page 3%positive Examples.granted_quiet
    = (Examples.granted_quiet, Ret 9) /\
  CurrentUrl.answered_by (Examples.reads Mock.quiet) 1%positive Examples.granted_quiet
    = (Examples.granted_quiet,
       Ret (VStr "https://practicetestautomation.com/practice-test-login/")) /\
  (PageTitle.answered_by (Examples.reads Mock.quiet) 1%positive Examples.granted_quiet).2
    = Ret (VStr "Test Login | Practice Test Automation").
Proof.
  split; [vm_compute; reflexivity|]. split; [vm_compute; reflexivity|].
  destruct (url_and_title_read_the_page (Examples.reads Mock.quiet)
              Examples.granted_quiet Examples.granted_quiet
              1%positive 3%positive
              (mkActor "TestUser" {[BrowseTheWeb.cls := 3%positive]}) 9)
    as [Hurl Htitle]; [vm_compute; reflexivity ..|].
  split; [exact Hurl | rewrite Htitle; vm_compute; reflexivity].
Defined.
